(** * babyfs: mount/unmount life cycle and the inode cache (src/super.c)

    A shallow embedding of [super.c].  Kernel objects that the C code
    mutates through pointers (the [super_block], the heap of
    [baby_sb_info] objects, buffer-head reference counts, the slab cache,
    the RCU callback queue) are explicit state; every kernel service whose
    outcome the module cannot control (allocation, block I/O, the inode
    provider, registration) takes its return value from an environment
    record, so that each function below is a total, executable function of
    the environment and the state. *)

From Stdlib Require Import ZArith List Bool Lia.
From stdpp Require Import base option gmap list.
Import ListNotations.

Local Open Scope Z_scope.

(** ** Error numbers and C integer conversions *)

Module Errno.
Definition ENOENT : Z := 2.
Definition EIO : Z := 5.
Definition ENOMEM : Z := 12.
Definition ENOSYS : Z := 38.
Definition EUCLEAN : Z := 117.
Definition MAX_ERRNO : Z := 4095.

(** The error kinds the specification speaks of. *)
Inductive kind := OutOfMemory | IOError | NotFound | Corrupt | OtherError.

(** Kind of a (negative) return value. *)
Definition kind_of (ret : Z) : option kind :=
  if ret =? 0 then None
  else if ret =? - ENOMEM then Some OutOfMemory
  else if ret =? - EIO then Some IOError
  else if ret =? - ENOENT then Some NotFound
  else if ret =? - EUCLEAN then Some Corrupt
  else Some OtherError.
End Errno.
Import Errno.

Module CInt.
(** Conversion to a signed [w]-bit integer (two's complement wrap-around). *)
Definition wrap_signed (w : Z) (z : Z) : Z :=
  (z + 2 ^ (w - 1)) mod 2 ^ w - 2 ^ (w - 1).

Definition to_int (z : Z) : Z := wrap_signed 32 z.
Definition to_long (z : Z) : Z := wrap_signed 64 z.
Definition to_ulong (z : Z) : Z := z mod 2 ^ 64.
End CInt.
Import CInt.

(** Pointers are machine addresses (unsigned, 64 bits); [NULL] is 0. *)
Definition NULL : Z := 0.

(** linux/err.h: an error is carried in the top [MAX_ERRNO] addresses;
    [IS_ERR] compares the pointer, as an unsigned long, with
    (unsigned long)-MAX_ERRNO. *)
Definition ERR_PTR (error : Z) : Z := to_ulong error.
Definition PTR_ERR (ptr : Z) : Z := to_long ptr.
Definition IS_ERR (ptr : Z) : bool := to_ulong (- MAX_ERRNO) <=? to_ulong ptr.

(** ** Data model *)

(** Constants and layout facts of [babyfs.h] and of the kernel's
    [struct inode], which [super.c] uses but does not define. *)
Record babyfs_h := {
  BABYFS_BLOCK_SIZE : Z;
  BABYFS_SUPER_BLOCK : Z;
  BABYFS_ROOT_INODE_NO : Z;
  sizeof_baby_inode_info : Z;
  offsetof_vfs_inode : Z;       (* offsetof(struct baby_inode_info, vfs_inode) *)
  offsetof_i_rcu : Z            (* offsetof(struct inode, i_rcu) *)
}.

(** The on-disk superblock: the two leading 4-byte fields. *)
Record baby_super_block := {
  magic : Z;
  nr_dstore_blocks : Z
}.

(** A buffer head pins one block of one device; [b_data] is its content. *)
Record buffer_head := {
  b_bdev : nat;
  b_blocknr : Z;
  b_data : baby_super_block
}.

(** [s_babysb] points into the data of [s_sbh]; both are NULL after kzalloc. *)
Record baby_sb_info := {
  s_babysb : option baby_super_block;
  s_sbh : option buffer_head
}.

(** The operation tables a [super_block] can point to. *)
Inductive sops_ptr := sops_NULL | sops_babyfs_super_opts.

Record super_block := {
  s_bdev : nat;
  s_blocksize : Z;
  s_magic : Z;
  s_op : sops_ptr;
  s_fs_info : Z;               (* address of the baby_sb_info, or NULL *)
  s_root : Z                   (* address of the root dentry, or NULL *)
}.

(** Global kernel state touched by mount and unmount. *)
Record kstate := {
  NR_DSTORE_BLOCKS : Z;                     (* the module's global int *)
  kheap : gmap Z baby_sb_info;              (* live kzalloc'ed objects *)
  b_count : gmap (nat * Z) nat              (* buffer-head reference counts *)
}.

(** What the kernel answers during one call of [babyfs_fill_super]. *)
Record mount_env := {
  kzalloc_ptr : Z;                          (* NULL when out of memory *)
  set_blocksize_ok : bool;
  bread_data : option baby_super_block;     (* None: the read failed *)
  iget_ptr : Z;                             (* inode, or ERR_PTR(-errno) *)
  make_root_ptr : Z                         (* dentry, or NULL *)
}.

Definition set_s_blocksize (v : Z) (sb : super_block) : super_block :=
  {| s_bdev := s_bdev sb; s_blocksize := v; s_magic := s_magic sb;
     s_op := s_op sb; s_fs_info := s_fs_info sb; s_root := s_root sb |}.
Definition set_s_magic (v : Z) (sb : super_block) : super_block :=
  {| s_bdev := s_bdev sb; s_blocksize := s_blocksize sb; s_magic := v;
     s_op := s_op sb; s_fs_info := s_fs_info sb; s_root := s_root sb |}.
Definition set_s_op (v : sops_ptr) (sb : super_block) : super_block :=
  {| s_bdev := s_bdev sb; s_blocksize := s_blocksize sb; s_magic := s_magic sb;
     s_op := v; s_fs_info := s_fs_info sb; s_root := s_root sb |}.
Definition set_s_fs_info (v : Z) (sb : super_block) : super_block :=
  {| s_bdev := s_bdev sb; s_blocksize := s_blocksize sb; s_magic := s_magic sb;
     s_op := s_op sb; s_fs_info := v; s_root := s_root sb |}.
Definition set_s_root (v : Z) (sb : super_block) : super_block :=
  {| s_bdev := s_bdev sb; s_blocksize := s_blocksize sb; s_magic := s_magic sb;
     s_op := s_op sb; s_fs_info := s_fs_info sb; s_root := v |}.

Definition set_NR_DSTORE_BLOCKS (v : Z) (k : kstate) : kstate :=
  {| NR_DSTORE_BLOCKS := v; kheap := kheap k; b_count := b_count k |}.
Definition set_kheap (h : gmap Z baby_sb_info) (k : kstate) : kstate :=
  {| NR_DSTORE_BLOCKS := NR_DSTORE_BLOCKS k; kheap := h; b_count := b_count k |}.
Definition set_b_count (c : gmap (nat * Z) nat) (k : kstate) : kstate :=
  {| NR_DSTORE_BLOCKS := NR_DSTORE_BLOCKS k; kheap := kheap k; b_count := c |}.

Definition set_bread_data (d : option baby_super_block) (e : mount_env) : mount_env :=
  {| kzalloc_ptr := kzalloc_ptr e; set_blocksize_ok := set_blocksize_ok e;
     bread_data := d; iget_ptr := iget_ptr e; make_root_ptr := make_root_ptr e |}.

(** ** Kernel services used by mount and unmount *)

Definition bh_key (bh : buffer_head) : nat * Z := (b_bdev bh, b_blocknr bh).

Definition refs (k : kstate) (key : nat * Z) : nat :=
  default 0%nat (b_count k !! key).

(** kzalloc: a zero-filled object at the address the allocator chose. *)
Definition kzalloc (e : mount_env) (k : kstate) : Z * kstate :=
  if kzalloc_ptr e =? NULL then (NULL, k)
  else (kzalloc_ptr e,
        set_kheap (<[kzalloc_ptr e := {| s_babysb := None; s_sbh := None |}]> (kheap k)) k).

(** kfree(NULL) does nothing. *)
Definition kfree (p : Z) (k : kstate) : kstate :=
  if p =? NULL then k else set_kheap (delete p (kheap k)) k.

(** sb_set_blocksize returns the new block size, or 0 when the device
    refuses it (the super block is then left as it was). *)
Definition sb_set_blocksize (e : mount_env) (sb : super_block) (size : Z)
  : Z * super_block :=
  if set_blocksize_ok e then (size, set_s_blocksize size sb) else (0, sb).

(** sb_bread returns a buffer head with one more reference, or NULL. *)
Definition sb_bread (e : mount_env) (sb : super_block) (block : Z) (k : kstate)
  : option buffer_head * kstate :=
  match bread_data e with
  | None => (None, k)
  | Some d =>
      let bh := {| b_bdev := s_bdev sb; b_blocknr := block; b_data := d |} in
      (Some bh,
       set_b_count (<[bh_key bh := S (refs k (bh_key bh))]> (b_count k)) k)
  end.

(** brelse drops one reference; brelse(NULL) and a release of a buffer
    with no reference left change nothing. *)
Definition brelse (bh : option buffer_head) (k : kstate) : kstate :=
  match bh with
  | None => k
  | Some b =>
      match refs k (bh_key b) with
      | O => k
      | S n => set_b_count (<[bh_key b := n]> (b_count k)) k
      end
  end.

Definition baby_iget (e : mount_env) (sb : super_block) (ino : Z) : Z := iget_ptr e.
Definition d_make_root (e : mount_env) (root_inode : Z) : Z := make_root_ptr e.

(** ** babyfs_fill_super *)

Section Mount.
Context (hdr : babyfs_h).

(** Label [failed]: the function returns [ret] (a long) as an int. *)
Definition failed (ret : Z) (sb : super_block) (k : kstate)
  : Z * super_block * kstate :=
  (to_int ret, sb, k).

(** Label [failed_mount]: release the buffer head, then [failed]. *)
Definition failed_mount (ret : Z) (bh : buffer_head) (sb : super_block) (k : kstate)
  : Z * super_block * kstate :=
  failed ret sb (brelse (Some bh) k).

Definition babyfs_fill_super (e : mount_env) (sb : super_block) (k : kstate)
  : Z * super_block * kstate :=
  let ret := - ENOMEM in
  let '(baby_sb_info, k) := kzalloc e k in
  if baby_sb_info =? NULL then failed ret sb k else
  let '(blocksize, sb) := sb_set_blocksize e sb (BABYFS_BLOCK_SIZE hdr) in
  if blocksize =? 0 then failed ret sb k else
  match sb_bread e sb (BABYFS_SUPER_BLOCK hdr) k with
  | (None, k) => failed ret sb k
  | (Some bh, k) =>
      let baby_sb := b_data bh in
      let k := set_NR_DSTORE_BLOCKS (to_int (nr_dstore_blocks baby_sb)) k in
      let sb := set_s_magic (to_ulong (magic baby_sb)) sb in
      let sb := set_s_op sops_babyfs_super_opts sb in
      let k := set_kheap
                 (<[baby_sb_info := {| s_babysb := Some baby_sb; s_sbh := Some bh |}]>
                    (kheap k)) k in
      let sb := set_s_fs_info baby_sb_info sb in
      let root_vfs_inode := baby_iget e sb (BABYFS_ROOT_INODE_NO hdr) in
      if IS_ERR root_vfs_inode then failed_mount (PTR_ERR root_vfs_inode) bh sb k else
      let sb := set_s_root (d_make_root e root_vfs_inode) sb in
      if s_root sb =? NULL then failed_mount (- ENOMEM) bh sb k else
      (0, sb, k)
  end.
End Mount.

(** States along the successful path of [babyfs_fill_super], named for
    the statements below. *)
Section MountStates.
Context (hdr : babyfs_h).

(** The buffer head that a mount of [sb] reads. *)
Definition super_bh (sb : super_block) (d : baby_super_block) : buffer_head :=
  {| b_bdev := s_bdev sb; b_blocknr := BABYFS_SUPER_BLOCK hdr; b_data := d |}.

Definition super_key (sb : super_block) : nat * Z :=
  (s_bdev sb, BABYFS_SUPER_BLOCK hdr).

(** Kernel state once the superblock is read and recorded (line 43). *)
Definition recorded (e : mount_env) (sb : super_block) (d : baby_super_block)
    (k : kstate) : kstate :=
  {| NR_DSTORE_BLOCKS := to_int (nr_dstore_blocks d);
     kheap := <[kzalloc_ptr e :=
                  {| s_babysb := Some d; s_sbh := Some (super_bh sb d) |}]>
                (<[kzalloc_ptr e := {| s_babysb := None; s_sbh := None |}]> (kheap k));
     b_count := <[super_key sb := S (refs k (super_key sb))]> (b_count k) |}.

(** Super block once the superblock is read and recorded (line 43). *)
Definition attached (e : mount_env) (sb : super_block) (d : baby_super_block)
  : super_block :=
  {| s_bdev := s_bdev sb; s_blocksize := BABYFS_BLOCK_SIZE hdr;
     s_magic := to_ulong (magic d); s_op := sops_babyfs_super_opts;
     s_fs_info := kzalloc_ptr e; s_root := s_root sb |}.
End MountStates.

(** ** baby_put_super *)

Definition BABY_SB (sb : super_block) : Z := s_fs_info sb.

(** [None] stands for a dereference of a pointer to no live object. *)
Definition baby_put_super (sb : super_block) (k : kstate)
  : option (super_block * kstate) :=
  let baby_sb_info := BABY_SB sb in
  if baby_sb_info =? NULL then Some (sb, k)
  else
    match kheap k !! baby_sb_info with
    | None => None
    | Some info =>
        let k := brelse (s_sbh info) k in
        let sb := set_s_fs_info NULL sb in
        Some (sb, kfree baby_sb_info k)
    end.

(** ** The inode cache: slab cache, RCU queue, module state *)

(** Observable steps of the module life cycle. *)
Inductive event :=
| EvCacheCreate (ok : bool)
| EvRegister (err : Z)
| EvUnregister
| EvCacheFree (obj : Z)
| EvRcuBarrier
| EvCacheDestroy (still_pending : nat).

(** The functions that are handed to [call_rcu] in this module. *)
Inductive rcu_func := rcu_baby_i_callback.

(** A slab cache.  Its storage is one arena starting at [kc_base]; slots
    are carved from it [kc_objs_per_slab] at a time, and a carved slot that
    is not handed out sits in [kc_free].  The constructor acts on the
    record of [inode_init_once] runs (see [mstate]). *)
Record kmem_cache := {
  kc_size : Z;
  kc_ctor : option (Z -> gmap Z nat -> gmap Z nat);
  kc_base : Z;
  kc_objs_per_slab : nat;
  kc_carved : nat;
  kc_free : list Z;
  kc_live : bool
}.

Record mstate := {
  baby_inode_cachep : option kmem_cache;    (* None is NULL *)
  inode_inits : gmap Z nat;                 (* inode_init_once runs, per inode address *)
  rcu_pending : list (Z * rcu_func);        (* queued by call_rcu, oldest first *)
  registered : bool;                        (* baby_fs_type is registered *)
  bad_cache_use : bool;                     (* a cache was used while NULL or destroyed *)
  klog : list event
}.

(** What the kernel answers during [init_babyfs]. *)
Record init_env := {
  cache_create : option (Z * nat);          (* arena base and slots per slab; None is NULL *)
  register_err : Z
}.

Definition set_cachep (c : option kmem_cache) (m : mstate) : mstate :=
  {| baby_inode_cachep := c; inode_inits := inode_inits m;
     rcu_pending := rcu_pending m; registered := registered m;
     bad_cache_use := bad_cache_use m; klog := klog m |}.
Definition set_inode_inits (i : gmap Z nat) (m : mstate) : mstate :=
  {| baby_inode_cachep := baby_inode_cachep m; inode_inits := i;
     rcu_pending := rcu_pending m; registered := registered m;
     bad_cache_use := bad_cache_use m; klog := klog m |}.
Definition set_rcu_pending (q : list (Z * rcu_func)) (m : mstate) : mstate :=
  {| baby_inode_cachep := baby_inode_cachep m; inode_inits := inode_inits m;
     rcu_pending := q; registered := registered m;
     bad_cache_use := bad_cache_use m; klog := klog m |}.
Definition set_registered (b : bool) (m : mstate) : mstate :=
  {| baby_inode_cachep := baby_inode_cachep m; inode_inits := inode_inits m;
     rcu_pending := rcu_pending m; registered := b;
     bad_cache_use := bad_cache_use m; klog := klog m |}.
Definition set_bad_cache_use (m : mstate) : mstate :=
  {| baby_inode_cachep := baby_inode_cachep m; inode_inits := inode_inits m;
     rcu_pending := rcu_pending m; registered := registered m;
     bad_cache_use := true; klog := klog m |}.
Definition log (ev : event) (m : mstate) : mstate :=
  {| baby_inode_cachep := baby_inode_cachep m; inode_inits := inode_inits m;
     rcu_pending := rcu_pending m; registered := registered m;
     bad_cache_use := bad_cache_use m; klog := klog m ++ [ev] |}.

Definition set_kc_free (l : list Z) (c : kmem_cache) : kmem_cache :=
  {| kc_size := kc_size c; kc_ctor := kc_ctor c; kc_base := kc_base c;
     kc_objs_per_slab := kc_objs_per_slab c; kc_carved := kc_carved c;
     kc_free := l; kc_live := kc_live c |}.
Definition set_kc_carved (n : nat) (c : kmem_cache) : kmem_cache :=
  {| kc_size := kc_size c; kc_ctor := kc_ctor c; kc_base := kc_base c;
     kc_objs_per_slab := kc_objs_per_slab c; kc_carved := n;
     kc_free := kc_free c; kc_live := kc_live c |}.
Definition set_kc_dead (c : kmem_cache) : kmem_cache :=
  {| kc_size := kc_size c; kc_ctor := kc_ctor c; kc_base := kc_base c;
     kc_objs_per_slab := kc_objs_per_slab c; kc_carved := kc_carved c;
     kc_free := kc_free c; kc_live := false |}.

(** Address of the [i]-th slot of the arena. *)
Definition slot_addr (c : kmem_cache) (i : nat) : Z :=
  kc_base c + Z.of_nat i * kc_size c.

(** Carving: the next [kc_objs_per_slab] slots are cut from the arena, the
    constructor runs on each of them, and they join the free list. *)
Definition cache_grow (c : kmem_cache) (inits : gmap Z nat)
  : kmem_cache * gmap Z nat :=
  let fresh := map (slot_addr c) (seq (kc_carved c) (kc_objs_per_slab c)) in
  let inits' :=
    match kc_ctor c with
    | Some ctor => fold_left (fun acc obj => ctor obj acc) fresh inits
    | None => inits
    end in
  (set_kc_free (kc_free c ++ fresh)
     (set_kc_carved (kc_carved c + kc_objs_per_slab c)%nat c),
   inits').

(** kmem_cache_alloc on [baby_inode_cachep]: a free slot if there is one;
    otherwise the cache grows when memory allows ([can_grow]), else NULL.
    No constructor runs on a slot taken from the free list. *)
Definition kmem_cache_alloc (can_grow : bool) (m : mstate) : Z * mstate :=
  match baby_inode_cachep m with
  | None => (NULL, set_bad_cache_use m)
  | Some c =>
      if negb (kc_live c) then (NULL, set_bad_cache_use m) else
      match kc_free c with
      | obj :: rest => (obj, set_cachep (Some (set_kc_free rest c)) m)
      | [] =>
          if can_grow then
            let '(c', inits') := cache_grow c (inode_inits m) in
            match kc_free c' with
            | obj :: rest =>
                (obj, set_cachep (Some (set_kc_free rest c')) (set_inode_inits inits' m))
            | [] => (NULL, set_cachep (Some c') (set_inode_inits inits' m))
            end
          else (NULL, m)
      end
  end.

(** kmem_cache_free on [baby_inode_cachep]: the slot returns to the free list. *)
Definition kmem_cache_free (obj : Z) (m : mstate) : mstate :=
  let m := log (EvCacheFree obj) m in
  match baby_inode_cachep m with
  | None => set_bad_cache_use m
  | Some c =>
      if kc_live c then set_cachep (Some (set_kc_free (obj :: kc_free c) c)) m
      else set_bad_cache_use m
  end.

(** kmem_cache_destroy on [baby_inode_cachep]; the event records how many
    RCU callbacks are still queued at that moment. *)
Definition kmem_cache_destroy (m : mstate) : mstate :=
  match baby_inode_cachep m with
  | None => m
  | Some c =>
      log (EvCacheDestroy (length (rcu_pending m)))
        (set_cachep (Some (set_kc_dead c)) m)
  end.

Definition call_rcu (head : Z) (func : rcu_func) (m : mstate) : mstate :=
  set_rcu_pending (rcu_pending m ++ [(head, func)]) m.

Definition container_of (ptr : Z) (member_offset : Z) : Z := ptr - member_offset.

(** inode_init_once on the generic inode at [inode]; the state keeps count. *)
Definition inode_init_once (inode : Z) (inits : gmap Z nat) : gmap Z nat :=
  <[inode := S (default 0%nat (inits !! inode))]> inits.

Section InodeCache.
Context (hdr : babyfs_h).

(** Modelled from the spec: [BABY_I] is a macro of babyfs.h, which is not
    among the sources.  The wrapper object embeds the generic inode
    (spec, data model), so [BABY_I] is the [container_of] of the
    [vfs_inode] member. *)
Definition BABY_I (inode : Z) : Z := container_of inode (offsetof_vfs_inode hdr).

Definition baby_alloc_inode (can_grow : bool) (m : mstate) : Z * mstate :=
  let '(bbi, m) := kmem_cache_alloc can_grow m in
  if bbi =? NULL then (NULL, m)
  else (bbi + offsetof_vfs_inode hdr, m).

Definition baby_i_callback (head : Z) (m : mstate) : mstate :=
  let inode := container_of head (offsetof_i_rcu hdr) in
  kmem_cache_free (BABY_I inode) m.

Definition baby_destroy_inode (inode : Z) (m : mstate) : mstate :=
  call_rcu (inode + offsetof_i_rcu hdr) rcu_baby_i_callback m.

Definition init_once (foo : Z) (inits : gmap Z nat) : gmap Z nat :=
  let bbi := foo in
  inode_init_once (bbi + offsetof_vfs_inode hdr) inits.

Definition run_callback (cb : Z * rcu_func) (m : mstate) : mstate :=
  match cb with
  | (head, rcu_baby_i_callback) => baby_i_callback head m
  end.

(** One grace period elapses for the oldest queued callback. *)
Definition rcu_run_one (m : mstate) : mstate :=
  match rcu_pending m with
  | [] => m
  | cb :: q => run_callback cb (set_rcu_pending q m)
  end.

(** rcu_barrier returns when every callback queued so far has run. *)
Definition rcu_barrier (m : mstate) : mstate :=
  log EvRcuBarrier
    (fold_left (fun acc cb => run_callback cb acc) (rcu_pending m)
       (set_rcu_pending [] m)).

Definition kmem_cache_create_usercopy (ie : init_env) (size : Z)
    (ctor : Z -> gmap Z nat -> gmap Z nat) : option kmem_cache :=
  match cache_create ie with
  | None => None
  | Some (base, per_slab) =>
      Some {| kc_size := size; kc_ctor := Some ctor; kc_base := base;
              kc_objs_per_slab := per_slab; kc_carved := 0; kc_free := [];
              kc_live := true |}
  end.

Definition init_inodecache (ie : init_env) (m : mstate) : Z * mstate :=
  let cachep := kmem_cache_create_usercopy ie (sizeof_baby_inode_info hdr) init_once in
  let m := log (EvCacheCreate (bool_decide (is_Some cachep))) (set_cachep cachep m) in
  match baby_inode_cachep m with
  | None => (- ENOMEM, m)
  | Some _ => (0, m)
  end.

(** The cache that [init_inodecache] obtains when the kernel grants one. *)
Definition created_cache (base : Z) (per_slab : nat) : kmem_cache :=
  {| kc_size := sizeof_baby_inode_info hdr; kc_ctor := Some init_once;
     kc_base := base; kc_objs_per_slab := per_slab; kc_carved := 0;
     kc_free := []; kc_live := true |}.

Definition destroy_inodecache (m : mstate) : mstate :=
  kmem_cache_destroy (rcu_barrier m).

Definition register_filesystem (ie : init_env) (m : mstate) : Z * mstate :=
  let m := log (EvRegister (register_err ie)) m in
  if register_err ie =? 0 then (0, set_registered true m)
  else (register_err ie, m).

Definition unregister_filesystem (m : mstate) : mstate :=
  log EvUnregister (set_registered false m).

Definition init_babyfs (ie : init_env) (m : mstate) : Z * mstate :=
  let '(err, m) := init_inodecache ie m in
  if negb (err =? 0) then (err, m) else
  let '(err, m) := register_filesystem ie m in
  if negb (err =? 0) then (err, destroy_inodecache m) else
  (0, m).

Definition exit_babyfs (m : mstate) : mstate :=
  destroy_inodecache (unregister_filesystem m).

(** The slot that a queued callback hands back to the cache. *)
Definition freed_slot (cb : Z * rcu_func) : Z :=
  BABY_I (container_of cb.1 (offsetof_i_rcu hdr)).

(** Address of the generic inode inside the [i]-th slot. *)
Definition inode_of_slot (c : kmem_cache) (i : nat) : Z :=
  slot_addr c i + offsetof_vfs_inode hdr.

(** Exactly the first [n] slots had [inode_init_once] run, once each. *)
Definition inits_ok (c : kmem_cache) (n : nat) (inits : gmap Z nat) : Prop :=
  forall i : nat,
    ((i < n)%nat -> inits !! inode_of_slot c i = Some 1%nat) /\
    ((n <= i)%nat -> inits !! inode_of_slot c i = None).

(** The cache is the one [init_inodecache] made, and every slot carved
    so far was constructed exactly once. *)
Definition ctor_once (base : Z) (m : mstate) : Prop :=
  exists c,
    baby_inode_cachep m = Some c /\
    kc_base c = base /\
    kc_size c = sizeof_baby_inode_info hdr /\
    kc_ctor c = Some init_once /\
    inits_ok c (kc_carved c) (inode_inits m).

(** What the rest of the kernel does with the cache between init and exit. *)
Inductive pool_op :=
| OpAlloc (can_grow : bool)        (* alloc_inode *)
| OpDestroy (inode : Z)            (* destroy_inode *)
| OpGrace.                         (* a grace period ends *)

Definition run_op (op : pool_op) (m : mstate) : mstate :=
  match op with
  | OpAlloc g => snd (baby_alloc_inode g m)
  | OpDestroy inode => baby_destroy_inode inode m
  | OpGrace => rcu_run_one m
  end.

Definition run_ops (ops : list pool_op) (m : mstate) : mstate :=
  fold_left (fun acc op => run_op op acc) ops m.
End InodeCache.

(** ** The host's use of the inode cache *)

Section PoolProtocol.
Context (hdr : babyfs_h).

(** The host destroys only an inode that [alloc_inode] returned and that
    it has not destroyed since.  [live] lists the inodes in use; [None]
    means that the sequence breaks this rule. *)
Definition step_tracked (op : pool_op) (m : mstate) (live : list Z)
  : option (mstate * list Z) :=
  match op with
  | OpAlloc g =>
      let '(inode, m') := baby_alloc_inode hdr g m in
      Some (m', if inode =? NULL then live else inode :: live)
  | OpDestroy inode =>
      if bool_decide (inode ∈ live)
      then Some (baby_destroy_inode hdr inode m, filter (fun x => x <> inode) live)
      else None
  | OpGrace => Some (rcu_run_one hdr m, live)
  end.

Fixpoint run_tracked (ops : list pool_op) (m : mstate) (live : list Z)
  : option (mstate * list Z) :=
  match ops with
  | [] => Some (m, live)
  | op :: ops =>
      match step_tracked op m live with
      | Some (m', live') => run_tracked ops m' live'
      | None => None
      end
  end.

(** Every slot the cache has carved and not lost: free, waiting for its
    grace period, or in use. *)
Definition slots_of (c : kmem_cache) (m : mstate) (live : list Z) : list Z :=
  kc_free c ++ (freed_slot hdr <$> rcu_pending m) ++ (BABY_I hdr <$> live).

Definition carved_slot (c : kmem_cache) (s : Z) : Prop :=
  exists i : nat, (i < kc_carved c)%nat /\ s = slot_addr c i.

(** The slots of [l] are carved slots of [c], no two of them the same. *)
Definition slots_ok (c : kmem_cache) (l : list Z) : Prop :=
  NoDup l /\ Forall (carved_slot c) l.

Definition pool_wf (m : mstate) (live : list Z) : Prop :=
  exists c,
    baby_inode_cachep m = Some c /\ kc_live c = true /\ 0 < kc_size c /\
    slots_ok c (slots_of c m live).
End PoolProtocol.

(** ** Statistics and the operation table *)

Record kstatfs := {
  f_type : Z;
  f_bsize : Z;
  f_blocks : Z;
  f_bfree : Z;
  f_bavail : Z;
  f_files : Z;
  f_ffree : Z;
  f_namelen : Z
}.

Definition PAGE_SIZE : Z := 4096.
Definition NAME_MAX : Z := 255.

Definition kstatfs_zero : kstatfs :=
  {| f_type := 0; f_bsize := 0; f_blocks := 0; f_bfree := 0; f_bavail := 0;
     f_files := 0; f_ffree := 0; f_namelen := 0 |}.

(** The kernel's generic statistics function (fs/libfs.c), which the
    operation table of [super.c] installs: it fills in the type, the block
    size and the name length and touches no other field of [buf]. *)
Definition simple_statfs (sb : super_block) (buf : kstatfs) : Z * kstatfs :=
  (0, {| f_type := s_magic sb; f_bsize := PAGE_SIZE;
         f_blocks := f_blocks buf; f_bfree := f_bfree buf;
         f_bavail := f_bavail buf; f_files := f_files buf;
         f_ffree := f_ffree buf; f_namelen := NAME_MAX |}).

(** [write_inode] is [baby_write_inode], which lives in another file and
    plays no part here. *)
Record super_operations := {
  statfs : option (super_block -> kstatfs -> Z * kstatfs);
  alloc_inode : option (bool -> mstate -> Z * mstate);
  destroy_inode : option (Z -> mstate -> mstate);
  put_super : option (super_block -> kstate -> option (super_block * kstate))
}.

Section Operations.
Context (hdr : babyfs_h).

Definition babyfs_super_opts : super_operations :=
  {| statfs := Some simple_statfs;
     alloc_inode := Some (baby_alloc_inode hdr);
     destroy_inode := Some (baby_destroy_inode hdr);
     put_super := Some baby_put_super |}.

Definition sops_deref (p : sops_ptr) : option super_operations :=
  match p with
  | sops_NULL => None
  | sops_babyfs_super_opts => Some babyfs_super_opts
  end.

(** The statistics query as the host issues it (fs/statfs.c): a zeroed
    buffer is handed to the [statfs] operation of the instance. *)
Definition vfs_statfs (sb : super_block) : Z * kstatfs :=
  match sops_deref (s_op sb) with
  | None => (- ENOSYS, kstatfs_zero)
  | Some ops =>
      match statfs ops with
      | None => (- ENOSYS, kstatfs_zero)
      | Some f => f sb kstatfs_zero
      end
  end.
End Operations.

(** ** Sample inputs *)

Module Sample.
Definition hdr : babyfs_h :=
  {| BABYFS_BLOCK_SIZE := 1024; BABYFS_SUPER_BLOCK := 1;
     BABYFS_ROOT_INODE_NO := 2; sizeof_baby_inode_info := 768;
     offsetof_vfs_inode := 128; offsetof_i_rcu := 400 |}.

Definition sb0 : super_block :=
  {| s_bdev := 7; s_blocksize := 512; s_magic := 0; s_op := sops_NULL;
     s_fs_info := NULL; s_root := NULL |}.

Definition sb1 : super_block :=
  {| s_bdev := 8; s_blocksize := 512; s_magic := 0; s_op := sops_NULL;
     s_fs_info := NULL; s_root := NULL |}.

Definition k0 : kstate :=
  {| NR_DSTORE_BLOCKS := 0; kheap := ∅; b_count := ∅ |}.

Definition disk (m n : Z) : baby_super_block :=
  {| magic := m; nr_dstore_blocks := n |}.

(** Every kernel service succeeds. *)
Definition env_ok (p : Z) (d : baby_super_block) : mount_env :=
  {| kzalloc_ptr := p; set_blocksize_ok := true; bread_data := Some d;
     iget_ptr := 0x5000; make_root_ptr := 0x6000 |}.

(** The device refuses the block size. *)
Definition env_noblk : mount_env :=
  {| kzalloc_ptr := 0x1000; set_blocksize_ok := false;
     bread_data := Some (disk 0xBABE1234 1000);
     iget_ptr := 0x5000; make_root_ptr := 0x6000 |}.

(** The inode provider answers ERR_PTR(-ENOENT). *)
Definition env_noroot : mount_env :=
  {| kzalloc_ptr := 0x1000; set_blocksize_ok := true;
     bread_data := Some (disk 0xBABE1234 1000);
     iget_ptr := ERR_PTR (- ENOENT); make_root_ptr := 0x6000 |}.

(** The superblock cannot be read. *)
Definition env_noread : mount_env :=
  {| kzalloc_ptr := 0x1000; set_blocksize_ok := true; bread_data := None;
     iget_ptr := 0x5000; make_root_ptr := 0x6000 |}.

(** The root dentry cannot be made. *)
Definition env_nodentry : mount_env :=
  {| kzalloc_ptr := 0x1000; set_blocksize_ok := true;
     bread_data := Some (disk 0xBABE1234 1000);
     iget_ptr := 0x5000; make_root_ptr := NULL |}.

(** The inode provider answers ERR_PTR(-EIO). *)
Definition env_ioerr : mount_env :=
  {| kzalloc_ptr := 0x1000; set_blocksize_ok := true;
     bread_data := Some (disk 0xBABE1234 1000);
     iget_ptr := ERR_PTR (- EIO); make_root_ptr := 0x6000 |}.

Definition m0 : mstate :=
  {| baby_inode_cachep := None; inode_inits := ∅; rcu_pending := [];
     registered := false; bad_cache_use := false; klog := [] |}.

Definition ie_ok : init_env :=
  {| cache_create := Some (0x100000, 4%nat); register_err := 0 |}.

(** The module right after a successful [init_babyfs]. *)
Definition m_loaded : mstate := (init_babyfs hdr ie_ok m0).2.

(** Two inodes were allocated and destroyed; both frees are pending. *)
Definition m_pending : mstate :=
  run_ops hdr
    [OpAlloc true; OpAlloc true;
     OpDestroy (0x100000 + 128); OpDestroy (0x100000 + 768 + 128)]
    m_loaded.

(** One slot goes through three allocate/reclaim cycles, then a second
    slab is carved. *)
Definition churn : list pool_op :=
  [OpAlloc true; OpDestroy (0x100000 + 128); OpGrace;
   OpAlloc false; OpDestroy (0x100000 + 128); OpGrace;
   OpAlloc false; OpDestroy (0x100000 + 128); OpGrace;
   OpAlloc true; OpAlloc true; OpAlloc true; OpAlloc true; OpAlloc true].
End Sample.

(** * Properties *)

(** ** C integer conversions and error pointers *)

Lemma to_int_small (z : Z) :
  -2147483648 <= z < 2147483648 -> to_int z = z.
Proof.
  intros Hz. unfold to_int, wrap_signed.
  change (2 ^ (32 - 1)) with 2147483648. change (2 ^ 32) with 4294967296.
  rewrite Z.mod_small; lia.
Qed.

Lemma to_ulong_small (z : Z) :
  0 <= z < 18446744073709551616 -> to_ulong z = z.
Proof.
  intros Hz. unfold to_ulong. change (2 ^ 64) with 18446744073709551616.
  apply Z.mod_small; lia.
Qed.

Lemma ERR_PTR_value (e : Z) :
  0 < e <= MAX_ERRNO -> ERR_PTR (- e) = 18446744073709551616 - e.
Proof.
  unfold MAX_ERRNO, ERR_PTR, to_ulong. intros He.
  change (2 ^ 64) with 18446744073709551616.
  symmetry. apply (Z.mod_unique _ _ (-1)); lia.
Qed.

Lemma IS_ERR_ERR_PTR (e : Z) :
  0 < e <= MAX_ERRNO -> IS_ERR (ERR_PTR (- e)) = true.
Proof.
  intros He. rewrite ERR_PTR_value by done.
  unfold IS_ERR. apply Z.leb_le.
  change (to_ulong (- MAX_ERRNO)) with 18446744073709547521.
  unfold MAX_ERRNO in He. rewrite to_ulong_small; lia.
Qed.

(** An error pointer carries an error number between -MAX_ERRNO and -1. *)
Lemma PTR_ERR_range (ptr : Z) :
  IS_ERR ptr = true -> - MAX_ERRNO <= PTR_ERR ptr < 0.
Proof.
  unfold IS_ERR, PTR_ERR, to_long, wrap_signed, MAX_ERRNO.
  change (to_ulong (- (4095))) with 18446744073709547521.
  unfold to_ulong.
  change (2 ^ (64 - 1)) with 9223372036854775808.
  change (2 ^ 64) with 18446744073709551616.
  intros H%Z.leb_le. Z.div_mod_to_equations. lia.
Qed.

Lemma to_int_PTR_ERR (ptr : Z) :
  IS_ERR ptr = true -> to_int (PTR_ERR ptr) = PTR_ERR ptr.
Proof.
  intros H%PTR_ERR_range. unfold MAX_ERRNO in H. apply to_int_small. lia.
Qed.

Lemma PTR_ERR_ERR_PTR (e : Z) :
  0 < e <= MAX_ERRNO -> PTR_ERR (ERR_PTR (- e)) = - e.
Proof.
  intros He. rewrite ERR_PTR_value by done.
  unfold PTR_ERR, to_long, wrap_signed, MAX_ERRNO in *.
  change (2 ^ (64 - 1)) with 9223372036854775808.
  change (2 ^ 64) with 18446744073709551616.
  replace (18446744073709551616 - e + 9223372036854775808)
    with (9223372036854775808 - e + 1 * 18446744073709551616) by lia.
  rewrite Z.mod_add by lia. rewrite Z.mod_small; lia.
Qed.

Lemma to_int_ENOMEM : to_int (- ENOMEM) = - ENOMEM.
Proof. reflexivity. Qed.

(** ** Reference counts *)

Lemma refs_set_b_count (k : kstate) (c : gmap (nat * Z) nat) (key : nat * Z) :
  refs (set_b_count c k) key = default 0%nat (c !! key).
Proof. reflexivity. Qed.

(** A release undoes the reference that a read took. *)
Lemma brelse_after_get (k k' : kstate) (bh : buffer_head) (key : nat * Z) :
  b_count k' = <[bh_key bh := S (refs k (bh_key bh))]> (b_count k) ->
  refs (brelse (Some bh) k') key = refs k key.
Proof.
  intros Hget. unfold brelse.
  assert (Hrefs : refs k' (bh_key bh) = S (refs k (bh_key bh))).
  { unfold refs at 1. by rewrite Hget, lookup_insert_eq. }
  rewrite Hrefs, refs_set_b_count, Hget.
  destruct (decide (bh_key bh = key)) as [->|Hne].
  - by rewrite lookup_insert_eq.
  - rewrite lookup_insert_ne by done. by rewrite lookup_insert_ne.
Qed.

Lemma kheap_brelse (bh : option buffer_head) (k : kstate) :
  kheap (brelse bh k) = kheap k.
Proof.
  destruct bh as [b|]; [|done]. unfold brelse. by destruct (refs k (bh_key b)).
Qed.

(** ** Mount *)

Section MountFacts.
Context (hdr : babyfs_h).

(** The path through [babyfs_fill_super] once the block is read. *)
Lemma fill_super_read (e : mount_env) (sb : super_block) (k : kstate)
    (d : baby_super_block) :
  kzalloc_ptr e <> NULL ->
  set_blocksize_ok e = true ->
  BABYFS_BLOCK_SIZE hdr <> 0 ->
  bread_data e = Some d ->
  babyfs_fill_super hdr e sb k =
    if IS_ERR (iget_ptr e)
    then (PTR_ERR (iget_ptr e), attached hdr e sb d,
          brelse (Some (super_bh hdr sb d)) (recorded hdr e sb d k))
    else if make_root_ptr e =? NULL
    then (- ENOMEM, set_s_root NULL (attached hdr e sb d),
          brelse (Some (super_bh hdr sb d)) (recorded hdr e sb d k))
    else (0, set_s_root (make_root_ptr e) (attached hdr e sb d), recorded hdr e sb d k).
Proof.
  intros Hp Hbs Hsz Hd.
  unfold babyfs_fill_super, kzalloc, sb_set_blocksize, sb_bread,
    failed_mount, failed, baby_iget, d_make_root.
  apply Z.eqb_neq in Hp, Hsz. rewrite Hp, Hbs. simpl.
  rewrite Hp, Hsz, Hd. simpl.
  destruct (IS_ERR (iget_ptr e)) eqn:Herr.
  - by rewrite to_int_PTR_ERR.
  - destruct (make_root_ptr e =? NULL) eqn:Hroot; [|done].
    apply Z.eqb_eq in Hroot. by rewrite Hroot.
Qed.

(** Every failure before the block is read returns -ENOMEM. *)
Lemma fill_super_early (e : mount_env) (sb : super_block) (k : kstate) :
  kzalloc_ptr e = NULL \/ set_blocksize_ok e = false \/
    BABYFS_BLOCK_SIZE hdr = 0 \/ bread_data e = None ->
  (babyfs_fill_super hdr e sb k).1.1 = - ENOMEM.
Proof.
  intros H.
  unfold babyfs_fill_super, kzalloc, sb_set_blocksize, sb_bread, failed.
  destruct (kzalloc_ptr e =? NULL) eqn:Hp; simpl; [done|].
  rewrite Hp.
  destruct (set_blocksize_ok e) eqn:Hbs; simpl; [|done].
  destruct (BABYFS_BLOCK_SIZE hdr =? 0) eqn:Hsz; [done|].
  destruct (bread_data e) eqn:Hd; [|done].
  apply Z.eqb_neq in Hp, Hsz.
  destruct H as [?|[?|[?|?]]]; congruence.
Qed.

(** What a successful mount has done. *)
Lemma fill_super_success (e : mount_env) (sb sb' : super_block) (k k' : kstate) :
  babyfs_fill_super hdr e sb k = (0, sb', k') ->
  exists d,
    bread_data e = Some d /\ kzalloc_ptr e <> NULL /\
    sb' = set_s_root (make_root_ptr e) (attached hdr e sb d) /\
    k' = recorded hdr e sb d k.
Proof.
  intros Hret.
  assert (Hearly : ~ (kzalloc_ptr e = NULL \/ set_blocksize_ok e = false \/
                      BABYFS_BLOCK_SIZE hdr = 0 \/ bread_data e = None)).
  { intros H%(fill_super_early e sb k). rewrite Hret in H. discriminate. }
  destruct (decide (kzalloc_ptr e = NULL)) as [Hp|Hp]; [tauto|].
  destruct (set_blocksize_ok e) eqn:Hbs; [|tauto].
  destruct (decide (BABYFS_BLOCK_SIZE hdr = 0)) as [Hsz|Hsz]; [tauto|].
  destruct (bread_data e) as [d|] eqn:Hd; [|tauto].
  exists d. rewrite (fill_super_read e sb k d) in Hret by done.
  destruct (IS_ERR (iget_ptr e)) eqn:Herr.
  { apply PTR_ERR_range in Herr. inversion Hret. lia. }
  destruct (make_root_ptr e =? NULL); [discriminate|].
  inversion Hret. done.
Qed.
Lemma refs_recorded (e : mount_env) (sb : super_block) (d : baby_super_block)
    (k : kstate) :
  refs (recorded hdr e sb d k) (super_key hdr sb) = S (refs k (super_key hdr sb)).
Proof. unfold refs at 1, recorded. simpl. by rewrite lookup_insert_eq. Qed.

Lemma refs_kfree (p : Z) (k : kstate) (key : nat * Z) :
  refs (kfree p k) key = refs k key.
Proof. unfold kfree. by destruct (p =? NULL). Qed.

(** Unmount of an instance in the state that a successful mount leaves. *)
Lemma put_super_mounted (e : mount_env) (sb : super_block) (d : baby_super_block)
    (k : kstate) (root : Z) :
  kzalloc_ptr e <> NULL ->
  baby_put_super (set_s_root root (attached hdr e sb d)) (recorded hdr e sb d k) =
    Some (set_s_fs_info NULL (set_s_root root (attached hdr e sb d)),
          kfree (kzalloc_ptr e)
            (set_b_count
               (<[super_key hdr sb := refs k (super_key hdr sb)]>
                  (b_count (recorded hdr e sb d k)))
               (recorded hdr e sb d k))).
Proof.
  intros Hp%Z.eqb_neq.
  unfold baby_put_super, BABY_SB.
  change (s_fs_info (set_s_root root (attached hdr e sb d))) with (kzalloc_ptr e).
  rewrite Hp.
  change (kheap (recorded hdr e sb d k) !! kzalloc_ptr e)
    with (<[kzalloc_ptr e :=
              {| s_babysb := Some d; s_sbh := Some (super_bh hdr sb d) |}]>
            (<[kzalloc_ptr e := {| s_babysb := None; s_sbh := None |}]> (kheap k))
          !! kzalloc_ptr e).
  rewrite lookup_insert_eq.
  change (s_sbh {| s_babysb := Some d; s_sbh := Some (super_bh hdr sb d) |})
    with (Some (super_bh hdr sb d)).
  unfold brelse.
  change (bh_key (super_bh hdr sb d)) with (super_key hdr sb).
  by rewrite refs_recorded.
Qed.
(** The root inode cannot be had: the error of the inode provider is
    returned and the buffer is released, every reference count being what it
    was before the call; the [baby_sb_info] stays allocated and attached. *)
Lemma fill_super_root_error (e : mount_env) (sb : super_block) (k : kstate)
    (d : baby_super_block) :
  kzalloc_ptr e <> NULL ->
  set_blocksize_ok e = true ->
  BABYFS_BLOCK_SIZE hdr <> 0 ->
  bread_data e = Some d ->
  IS_ERR (iget_ptr e) = true ->
  (babyfs_fill_super hdr e sb k).1.1 = PTR_ERR (iget_ptr e) /\
  (forall key, refs (babyfs_fill_super hdr e sb k).2 key = refs k key) /\
  kheap (babyfs_fill_super hdr e sb k).2 !! kzalloc_ptr e =
    Some {| s_babysb := Some d; s_sbh := Some (super_bh hdr sb d) |} /\
  s_fs_info (babyfs_fill_super hdr e sb k).1.2 = kzalloc_ptr e.
Proof.
  intros Hp Hbs Hsz Hd Herr.
  rewrite (fill_super_read e sb k d) by done. rewrite Herr. cbn [fst snd].
  split; [done|]. split; [|split; [|done]].
  - intros key. by apply brelse_after_get.
  - rewrite kheap_brelse. simpl. by rewrite lookup_insert_eq.
Qed.
End MountFacts.

Section MountClaims.
Context (hdr : babyfs_h).

(** C1 (as amended): when the device refuses the block size, mount fails
    with -ENOMEM, that is OutOfMemory and not IOError; the super block is
    left exactly as it was, so no SuperblockInfo is attached to the
    instance, no block is pinned and the global block count is untouched. *)
Theorem fill_super_blocksize_refused (e : mount_env) (sb : super_block) (k : kstate) :
  set_blocksize_ok e = false ->
  exists k',
    babyfs_fill_super hdr e sb k = (- ENOMEM, sb, k') /\
    kind_of (- ENOMEM) = Some OutOfMemory /\
    NR_DSTORE_BLOCKS k' = NR_DSTORE_BLOCKS k /\
    b_count k' = b_count k.
Proof.
  intros Hbs.
  unfold babyfs_fill_super, kzalloc, sb_set_blocksize, failed.
  destruct (kzalloc_ptr e =? NULL) eqn:Hp; simpl.
  - by exists k.
  - rewrite Hp, Hbs. simpl. eexists. split; [reflexivity|]. done.
Qed.

(** C4: the magic and the block count are taken from the disk as they
    are.  Whatever the two fields hold, the return value of mount is the
    same (it is 0, -ENOMEM or the error of the inode provider), and after
    a successful mount [s_magic] is the 4-byte magic read from disk. *)
Theorem fill_super_no_validation (e : mount_env) (sb sb' : super_block)
    (k k' : kstate) (d d' : baby_super_block) (ret : Z) :
  0 <= magic d < 4294967296 ->
  babyfs_fill_super hdr (set_bread_data (Some d) e) sb k = (ret, sb', k') ->
  (babyfs_fill_super hdr (set_bread_data (Some d') e) sb k).1.1 = ret /\
  (ret = 0 \/ ret = - ENOMEM \/
     (IS_ERR (iget_ptr e) = true /\ ret = PTR_ERR (iget_ptr e))) /\
  (kind_of ret = Some Corrupt ->
     IS_ERR (iget_ptr e) = true /\ ret = PTR_ERR (iget_ptr e)) /\
  (ret = 0 -> s_magic sb' = magic d).
Proof.
  intros Hmagic Hrun.
  cut ((babyfs_fill_super hdr (set_bread_data (Some d') e) sb k).1.1 = ret /\
       (ret = 0 \/ ret = - ENOMEM \/
          (IS_ERR (iget_ptr e) = true /\ ret = PTR_ERR (iget_ptr e))) /\
       (ret = 0 -> s_magic sb' = magic d)).
  { intros (Hsame & Hcases & Hm). split; [exact Hsame|]. split; [exact Hcases|].
    split; [|exact Hm]. intros Hkind.
    destruct Hcases as [->|[->|Hprov]]; [discriminate|discriminate|exact Hprov]. }
  destruct (decide (kzalloc_ptr e = NULL \/ set_blocksize_ok e = false \/
                    BABYFS_BLOCK_SIZE hdr = 0)) as [Hearly|Hlate].
  - assert (Hd : forall x, (babyfs_fill_super hdr (set_bread_data (Some x) e) sb k).1.1
                           = - ENOMEM).
    { intros x. apply fill_super_early. simpl. tauto. }
    pose proof (Hd d) as Hret. rewrite Hrun in Hret. simpl in Hret. subst ret.
    rewrite Hd. split; [done|]. split; [tauto|]. discriminate.
  - assert (Hp : kzalloc_ptr e <> NULL) by tauto.
    assert (Hsz : BABYFS_BLOCK_SIZE hdr <> 0) by tauto.
    assert (Hbs : set_blocksize_ok e = true)
      by (destruct (set_blocksize_ok e); tauto).
    rewrite (fill_super_read hdr _ sb k d') by done.
    rewrite (fill_super_read hdr _ sb k d) in Hrun by done.
    simpl in *.
    destruct (IS_ERR (iget_ptr e)) eqn:Herr.
    { inversion Hrun; subst. apply PTR_ERR_range in Herr.
      split; [done|]. split; [tauto|]. lia. }
    destruct (make_root_ptr e =? NULL); inversion Hrun; subst; simpl.
    + split; [done|]. split; [tauto|]. discriminate.
    + split; [done|]. split; [tauto|]. intros _.
      apply to_ulong_small. lia.
Qed.

(** C9: the block count lives in the one global [NR_DSTORE_BLOCKS].
    Every successful mount stores there the count it read, so after a
    second mount the global holds the second instance's count and the
    first instance's count is gone when the two differ. *)
Theorem NR_DSTORE_BLOCKS_is_shared (e1 e2 : mount_env) (sbA sbA' sbB sbB' : super_block)
    (k k1 k2 : kstate) (d1 d2 : baby_super_block) :
  bread_data e1 = Some d1 ->
  bread_data e2 = Some d2 ->
  babyfs_fill_super hdr e1 sbA k = (0, sbA', k1) ->
  babyfs_fill_super hdr e2 sbB k1 = (0, sbB', k2) ->
  NR_DSTORE_BLOCKS k1 = to_int (nr_dstore_blocks d1) /\
  NR_DSTORE_BLOCKS k2 = to_int (nr_dstore_blocks d2) /\
  (to_int (nr_dstore_blocks d1) <> to_int (nr_dstore_blocks d2) ->
   NR_DSTORE_BLOCKS k2 <> to_int (nr_dstore_blocks d1)).
Proof.
  intros Hd1 Hd2 Hm1 Hm2.
  apply fill_super_success in Hm1 as (x1 & Hx1 & _ & _ & ->).
  apply fill_super_success in Hm2 as (x2 & Hx2 & _ & _ & ->).
  rewrite Hd1 in Hx1. rewrite Hd2 in Hx2.
  injection Hx1 as <-. injection Hx2 as <-. simpl.
  split; [done|]. split; [done|]. congruence.
Qed.

(** C3 (as amended): after a successful mount the statistics query is
    the generic default.  It reports the magic read from disk as the
    type, the page size as the block size and 255 as the longest name;
    total and free block counts are 0 whatever block count the disk
    records. *)
Theorem statfs_after_mount (e : mount_env) (sb sb' : super_block) (k k' : kstate)
    (d : baby_super_block) :
  bread_data e = Some d ->
  babyfs_fill_super hdr e sb k = (0, sb', k') ->
  vfs_statfs hdr sb' =
    (0, {| f_type := to_ulong (magic d); f_bsize := PAGE_SIZE; f_blocks := 0;
           f_bfree := 0; f_bavail := 0; f_files := 0; f_ffree := 0;
           f_namelen := NAME_MAX |}).
Proof.
  intros Hd Hm.
  apply fill_super_success in Hm as (x & Hx & _ & -> & _).
  rewrite Hd in Hx. injection Hx as <-. reflexivity.
Qed.

(** C7: after a successful mount, [baby_put_super] releases the pinned
    buffer (its reference count is back to what it was before the
    mount), clears [s_fs_info] and frees the [baby_sb_info]; a second
    call changes nothing, so the buffer is released exactly once. *)
Theorem baby_put_super_once (e : mount_env) (sb sb1 : super_block) (k k1 : kstate) :
  babyfs_fill_super hdr e sb k = (0, sb1, k1) ->
  exists sb2 k2,
    baby_put_super sb1 k1 = Some (sb2, k2) /\
    refs k1 (super_key hdr sb) = S (refs k (super_key hdr sb)) /\
    refs k2 (super_key hdr sb) = refs k (super_key hdr sb) /\
    s_fs_info sb1 = kzalloc_ptr e /\
    is_Some (kheap k1 !! kzalloc_ptr e) /\
    s_fs_info sb2 = NULL /\
    kheap k2 !! kzalloc_ptr e = None /\
    baby_put_super sb2 k2 = Some (sb2, k2) /\
    (forall sb0 k0, s_fs_info sb0 = NULL -> baby_put_super sb0 k0 = Some (sb0, k0)).
Proof.
  intros Hm.
  apply fill_super_success in Hm as (d & Hd & Hp & -> & ->).
  pose proof (refs_recorded hdr e sb d k) as Hrefs.
  rewrite (put_super_mounted hdr e sb d k _ Hp).
  eexists _, _. split; [reflexivity|].
  split; [done|].
  split. { rewrite refs_kfree, refs_set_b_count. by rewrite lookup_insert_eq. }
  split; [done|].
  split. { simpl. rewrite lookup_insert_eq. by eexists. }
  split; [done|].
  split. { unfold kfree. apply Z.eqb_neq in Hp. rewrite Hp. simpl.
           apply lookup_delete_eq. }
  split; [reflexivity|].
  intros sb0 k0 Hnull. unfold baby_put_super, BABY_SB. by rewrite Hnull.
Qed.
End MountClaims.

(** *** Mount: concrete runs *)

(** Witness of [fill_super_blocksize_refused]. *)
Lemma fill_super_blocksize_refused_witness :
  set_blocksize_ok Sample.env_noblk = false /\
  exists k',
    babyfs_fill_super Sample.hdr Sample.env_noblk Sample.sb0 Sample.k0
      = (- ENOMEM, Sample.sb0, k') /\
    kind_of (- ENOMEM) = Some OutOfMemory /\
    NR_DSTORE_BLOCKS k' = NR_DSTORE_BLOCKS Sample.k0 /\
    b_count k' = b_count Sample.k0.
Proof.
  split; [reflexivity|].
  apply (fill_super_blocksize_refused Sample.hdr Sample.env_noblk Sample.sb0 Sample.k0).
  reflexivity.
Defined.

(** C1 as stated fails: on a device that refuses the block size, with
    memory available, mount returns -ENOMEM (OutOfMemory, not IOError) and
    the [baby_sb_info] allocated at the start of the call is still on the
    heap when the call returns. *)
Lemma blocksize_refused_not_IOError :
  let r := babyfs_fill_super Sample.hdr Sample.env_noblk Sample.sb0 Sample.k0 in
  set_blocksize_ok Sample.env_noblk = false /\
  r.1.1 = - ENOMEM /\
  kind_of r.1.1 <> Some IOError /\
  kheap Sample.k0 !! 0x1000 = None /\
  kheap r.2 !! 0x1000 = Some {| s_babysb := None; s_sbh := None |}.
Proof.
  vm_compute. repeat split; discriminate.
Qed.

(** C2, at the failing input: the inode provider answers ERR_PTR(-ENOENT).
    Mount returns -ENOENT and the buffer's reference count is back to its
    value before the call, but the [baby_sb_info] allocated by the call is
    still on the heap, and [s_fs_info] still points to it. *)
Theorem root_lookup_failure_leaks_sb_info :
  let r := babyfs_fill_super Sample.hdr Sample.env_noroot Sample.sb0 Sample.k0 in
  IS_ERR (iget_ptr Sample.env_noroot) = true /\
  r.1.1 = - ENOENT /\
  kind_of r.1.1 = Some NotFound /\
  refs r.2 (super_key Sample.hdr Sample.sb0) = refs Sample.k0 (super_key Sample.hdr Sample.sb0) /\
  kheap Sample.k0 !! 0x1000 = None /\
  kheap r.2 !! 0x1000 =
    Some {| s_babysb := Some (Sample.disk 0xBABE1234 1000);
            s_sbh := Some (super_bh Sample.hdr Sample.sb0 (Sample.disk 0xBABE1234 1000)) |} /\
  s_fs_info r.1.2 = 0x1000.
Proof.
  vm_compute. repeat split.
Qed.

(** Witness of [fill_super_no_validation]: a magic that no format uses and
    a block count of 0 mount as well as the proper values. *)
Lemma fill_super_no_validation_witness :
  0 <= magic (Sample.disk 0xDEADBEEF 0) < 4294967296 /\
  (babyfs_fill_super Sample.hdr
     (set_bread_data (Some (Sample.disk 0xBABE1234 1000))
        (Sample.env_ok 0x1000 (Sample.disk 0 0))) Sample.sb0 Sample.k0).1.1 = 0 /\
  (0 = 0 -> s_magic
     (babyfs_fill_super Sample.hdr
        (set_bread_data (Some (Sample.disk 0xDEADBEEF 0))
           (Sample.env_ok 0x1000 (Sample.disk 0 0))) Sample.sb0 Sample.k0).1.2
   = 0xDEADBEEF).
Proof.
  assert (Hmagic : 0 <= magic (Sample.disk 0xDEADBEEF 0) < 4294967296)
    by (simpl; lia).
  split; [exact Hmagic|].
  destruct (fill_super_no_validation Sample.hdr
              (Sample.env_ok 0x1000 (Sample.disk 0 0))
              Sample.sb0 _ Sample.k0 _
              (Sample.disk 0xDEADBEEF 0) (Sample.disk 0xBABE1234 1000) 0
              Hmagic eq_refl) as (Hsame & _ & _ & Hm).
  split; [exact Hsame|exact Hm].
Defined.

(** Witness of [NR_DSTORE_BLOCKS_is_shared]: two devices, 1000 and 77 blocks. *)
Lemma NR_DSTORE_BLOCKS_is_shared_witness :
  exists k1 k2,
    NR_DSTORE_BLOCKS k1 = 1000 /\ NR_DSTORE_BLOCKS k2 = 77 /\
    (to_int 1000 <> to_int 77 -> NR_DSTORE_BLOCKS k2 <> to_int 1000).
Proof.
  eexists _, _.
  apply (NR_DSTORE_BLOCKS_is_shared Sample.hdr
           (Sample.env_ok 0x1000 (Sample.disk 0xBABE1234 1000))
           (Sample.env_ok 0x2000 (Sample.disk 0xBABE1234 77))
           Sample.sb0 _ Sample.sb1 _ Sample.k0 _ _
           (Sample.disk 0xBABE1234 1000) (Sample.disk 0xBABE1234 77)
           eq_refl eq_refl eq_refl eq_refl).
Defined.

(** Witness of [statfs_after_mount]. *)
Lemma statfs_after_mount_witness :
  exists sb',
    vfs_statfs Sample.hdr sb' =
      (0, {| f_type := to_ulong 0xBABE1234; f_bsize := PAGE_SIZE; f_blocks := 0;
             f_bfree := 0; f_bavail := 0; f_files := 0; f_ffree := 0;
             f_namelen := NAME_MAX |}).
Proof.
  eexists.
  apply (statfs_after_mount Sample.hdr
           (Sample.env_ok 0x1000 (Sample.disk 0xBABE1234 1000))
           Sample.sb0 _ Sample.k0 _ (Sample.disk 0xBABE1234 1000)
           eq_refl eq_refl).
Defined.

(** C3 as stated fails: with magic 0xBABE1234 and block count 1000 the
    mount succeeds, and the statistics query reports 0 total and 0 free
    blocks; a disk with 2000 blocks gives the very same answer. *)
Lemma statfs_ignores_block_count :
  let mounted n :=
    babyfs_fill_super Sample.hdr (Sample.env_ok 0x1000 (Sample.disk 0xBABE1234 n))
      Sample.sb0 Sample.k0 in
  (mounted 1000).1.1 = 0 /\
  NR_DSTORE_BLOCKS (mounted 1000).2 = 1000 /\
  f_blocks (vfs_statfs Sample.hdr (mounted 1000).1.2).2 = 0 /\
  f_bfree (vfs_statfs Sample.hdr (mounted 1000).1.2).2 = 0 /\
  (mounted 2000).1.1 = 0 /\
  vfs_statfs Sample.hdr (mounted 2000).1.2 = vfs_statfs Sample.hdr (mounted 1000).1.2.
Proof.
  vm_compute. repeat split.
Qed.

(** Witness of [baby_put_super_once]. *)
Lemma baby_put_super_once_witness :
  exists sb1 k1 sb2 k2,
    baby_put_super sb1 k1 = Some (sb2, k2) /\
    refs k1 (super_key Sample.hdr Sample.sb0) = 1%nat /\
    refs k2 (super_key Sample.hdr Sample.sb0) = 0%nat /\
    s_fs_info sb2 = NULL /\
    kheap k2 !! 0x1000 = None /\
    baby_put_super sb2 k2 = Some (sb2, k2).
Proof.
  destruct (baby_put_super_once Sample.hdr
              (Sample.env_ok 0x1000 (Sample.disk 0xBABE1234 1000))
              Sample.sb0 _ Sample.k0 _ eq_refl)
    as (sb2 & k2 & H1 & H2 & H3 & _ & _ & H4 & H5 & H6 & _).
  eexists _, _, sb2, k2.
  exact (conj H1 (conj H2 (conj H3 (conj H4 (conj H5 H6))))).
Defined.

(** ** The inode cache *)

Section CacheFacts.
Context (hdr : babyfs_h).

Lemma kmem_cache_free_live (obj : Z) (m : mstate) (c : kmem_cache) :
  baby_inode_cachep m = Some c ->
  kc_live c = true ->
  kmem_cache_free obj m =
    set_cachep (Some (set_kc_free (obj :: kc_free c) c)) (log (EvCacheFree obj) m).
Proof.
  intros Hc Hlive. unfold kmem_cache_free. simpl. by rewrite Hc, Hlive.
Qed.

Lemma run_callback_frees (cb : Z * rcu_func) (m : mstate) :
  run_callback hdr cb m = kmem_cache_free (freed_slot hdr cb) m.
Proof. by destruct cb as [head []]. Qed.

(** Running a queue of callbacks against a live cache: each hands its
    slot back, in order, and nothing else changes. *)
Lemma run_callbacks_live (q : list (Z * rcu_func)) :
  forall (m : mstate) (c : kmem_cache),
    baby_inode_cachep m = Some c ->
    kc_live c = true ->
    let m' := fold_left (fun acc cb => run_callback hdr cb acc) q m in
    klog m' = klog m ++ map (fun cb => EvCacheFree (freed_slot hdr cb)) q /\
    rcu_pending m' = rcu_pending m /\
    bad_cache_use m' = bad_cache_use m /\
    registered m' = registered m /\
    inode_inits m' = inode_inits m /\
    baby_inode_cachep m' =
      Some (set_kc_free (rev (map (freed_slot hdr) q) ++ kc_free c) c).
Proof.
  induction q as [|cb q IH]; intros m c Hc Hlive; simpl.
  - rewrite app_nil_r. by destruct c.
  - rewrite run_callback_frees, (kmem_cache_free_live _ m c Hc Hlive).
    edestruct (IH (set_cachep (Some (set_kc_free (freed_slot hdr cb :: kc_free c) c))
                     (log (EvCacheFree (freed_slot hdr cb)) m)))
      as (Hlog & Hq & Hbad & Hreg & Hin & Hcache); [reflexivity|exact Hlive|].
    rewrite Hlog, Hq, Hbad, Hreg, Hin, Hcache. simpl.
    repeat split; try done.
    + by rewrite <- app_assoc.
    + by rewrite <- app_assoc.
Qed.

(** The barrier on a live cache. *)
Lemma rcu_barrier_live (m : mstate) (c : kmem_cache) :
  baby_inode_cachep m = Some c ->
  kc_live c = true ->
  klog (rcu_barrier hdr m) =
    klog m ++ map (fun cb => EvCacheFree (freed_slot hdr cb)) (rcu_pending m)
           ++ [EvRcuBarrier] /\
  rcu_pending (rcu_barrier hdr m) = [] /\
  bad_cache_use (rcu_barrier hdr m) = bad_cache_use m /\
  registered (rcu_barrier hdr m) = registered m /\
  inode_inits (rcu_barrier hdr m) = inode_inits m /\
  baby_inode_cachep (rcu_barrier hdr m) =
    Some (set_kc_free (rev (map (freed_slot hdr) (rcu_pending m)) ++ kc_free c) c).
Proof.
  intros Hc Hlive. unfold rcu_barrier.
  destruct (run_callbacks_live (rcu_pending m) (set_rcu_pending [] m) c Hc Hlive)
    as (Hlog & Hq & Hbad & Hreg & Hin & Hcache).
  simpl in *. rewrite Hlog, Hq, Hbad, Hreg, Hin, Hcache.
  by rewrite <- app_assoc.
Qed.

(** Teardown leaves the registration alone and the cache destroyed. *)
Lemma destroy_inodecache_registered (m : mstate) (c : kmem_cache) :
  baby_inode_cachep m = Some c ->
  kc_live c = true ->
  registered (destroy_inodecache hdr m) = registered m /\
  klog (destroy_inodecache hdr m) =
    klog (rcu_barrier hdr m)
      ++ [EvCacheDestroy (length (rcu_pending (rcu_barrier hdr m)))] /\
  exists c', baby_inode_cachep (destroy_inodecache hdr m) = Some c' /\ kc_live c' = false.
Proof.
  intros Hc Hlive.
  destruct (rcu_barrier_live m c Hc Hlive) as (_ & _ & _ & Hreg & _ & Hcache).
  unfold destroy_inodecache, kmem_cache_destroy.
  remember (rcu_barrier hdr m) as mb eqn:Hmb.
  rewrite Hcache. simpl. split; [exact Hreg|]. split; [done|]. by eexists.
Qed.

(** C5: [destroy_inodecache] on a live cache with any number N of pending
    reclamations, N = 0 included.  All N queued callbacks run (N frees are
    logged) before the barrier returns, the cache is destroyed only after
    that, with 0 callbacks pending at the moment of destruction, and no
    callback ever meets a destroyed cache. *)
Theorem destroy_inodecache_drains_first (m : mstate) (c : kmem_cache) :
  baby_inode_cachep m = Some c ->
  kc_live c = true ->
  let m' := destroy_inodecache hdr m in
  klog m' =
    klog m ++ map (fun cb => EvCacheFree (freed_slot hdr cb)) (rcu_pending m)
           ++ [EvRcuBarrier; EvCacheDestroy 0] /\
  length (map (fun cb => EvCacheFree (freed_slot hdr cb)) (rcu_pending m))
    = length (rcu_pending m) /\
  rcu_pending m' = [] /\
  bad_cache_use m' = bad_cache_use m /\
  exists c', baby_inode_cachep m' = Some c' /\ kc_live c' = false.
Proof.
  intros Hc Hlive.
  destruct (rcu_barrier_live m c Hc Hlive) as (Hlog & Hq & Hbad & _ & _ & Hcache).
  unfold destroy_inodecache, kmem_cache_destroy.
  remember (rcu_barrier hdr m) as mb eqn:Hmb.
  rewrite Hcache, Hq. simpl.
  rewrite Hlog, Hq, Hbad.
  split. { rewrite <- !app_assoc. reflexivity. }
  split; [apply length_map|].
  split; [done|]. split; [done|]. by eexists.
Qed.

(** The order matters: had the cache been destroyed before the barrier,
    a pending callback would have used the destroyed cache. *)
Lemma destroy_before_barrier_is_unsafe (m : mstate) (c : kmem_cache)
    (cb : Z * rcu_func) (q : list (Z * rcu_func)) :
  baby_inode_cachep m = Some c ->
  rcu_pending m = cb :: q ->
  bad_cache_use (rcu_run_one hdr (kmem_cache_destroy m)) = true.
Proof.
  intros Hc Hq. unfold kmem_cache_destroy, rcu_run_one. rewrite Hc. simpl.
  rewrite Hq, run_callback_frees. reflexivity.
Qed.

(** C8: order of the steps of module init and exit, read off the log.
    Without a cache nothing is registered and -ENOMEM is returned; when
    registration fails the new cache is drained and destroyed and the
    error returned; on success the cache was created before the
    registration.  Exit unregisters first, then drains, then destroys. *)
Theorem init_exit_order (ie : init_env) (m : mstate) :
  (cache_create ie = None ->
     (init_babyfs hdr ie m).1 = - ENOMEM /\
     klog (init_babyfs hdr ie m).2 = klog m ++ [EvCacheCreate false] /\
     registered (init_babyfs hdr ie m).2 = registered m) /\
  (is_Some (cache_create ie) -> register_err ie <> 0 ->
     (init_babyfs hdr ie m).1 = register_err ie /\
     klog (init_babyfs hdr ie m).2 =
       klog m ++ [EvCacheCreate true; EvRegister (register_err ie)]
              ++ map (fun cb => EvCacheFree (freed_slot hdr cb)) (rcu_pending m)
              ++ [EvRcuBarrier; EvCacheDestroy 0] /\
     registered (init_babyfs hdr ie m).2 = registered m /\
     exists c, baby_inode_cachep (init_babyfs hdr ie m).2 = Some c /\
               kc_live c = false) /\
  (is_Some (cache_create ie) -> register_err ie = 0 ->
     (init_babyfs hdr ie m).1 = 0 /\
     klog (init_babyfs hdr ie m).2 =
       klog m ++ [EvCacheCreate true; EvRegister 0] /\
     registered (init_babyfs hdr ie m).2 = true /\
     exists c, baby_inode_cachep (init_babyfs hdr ie m).2 = Some c /\
               kc_live c = true) /\
  (forall c, baby_inode_cachep m = Some c -> kc_live c = true ->
     klog (exit_babyfs hdr m) =
       klog m ++ [EvUnregister]
              ++ map (fun cb => EvCacheFree (freed_slot hdr cb)) (rcu_pending m)
              ++ [EvRcuBarrier; EvCacheDestroy 0] /\
     registered (exit_babyfs hdr m) = false /\
     exists c', baby_inode_cachep (exit_babyfs hdr m) = Some c' /\
                kc_live c' = false).
Proof.
  split; [|split; [|split]].
  - intros Hnone.
    unfold init_babyfs, init_inodecache, kmem_cache_create_usercopy.
    rewrite Hnone. simpl. done.
  - intros [[base per] Hsome] Herr.
    set (m1 := log (EvRegister (register_err ie))
                 (log (EvCacheCreate true)
                    (set_cachep (Some (created_cache hdr base per)) m))).
    assert (Hinit : init_babyfs hdr ie m = (register_err ie, destroy_inodecache hdr m1)).
    { unfold init_babyfs, init_inodecache, kmem_cache_create_usercopy,
        register_filesystem.
      rewrite Hsome. simpl. apply Z.eqb_neq in Herr. rewrite Herr. simpl.
      rewrite Herr. reflexivity. }
    rewrite Hinit. simpl.
    destruct (destroy_inodecache_registered m1 (created_cache hdr base per)
                eq_refl eq_refl) as (Hreg & Hlog & Hdead).
    destruct (rcu_barrier_live m1 (created_cache hdr base per) eq_refl eq_refl)
      as (Hblog & Hq & _).
    split; [done|]. split.
    { rewrite Hlog, Hblog, Hq. simpl. rewrite <- !app_assoc. reflexivity. }
    split; [exact Hreg|exact Hdead].
  - intros [[base per] Hsome] Herr.
    unfold init_babyfs, init_inodecache, kmem_cache_create_usercopy,
      register_filesystem.
    rewrite Hsome, Herr. simpl.
    split; [done|]. split; [by rewrite <- app_assoc|]. split; [done|].
    by eexists.
  - intros c Hc Hlive. unfold exit_babyfs.
    destruct (destroy_inodecache_registered (unregister_filesystem m) c Hc Hlive)
      as (Hreg & Hlog & Hdead).
    destruct (rcu_barrier_live (unregister_filesystem m) c Hc Hlive)
      as (Hblog & Hq & _).
    split.
    { rewrite Hlog, Hblog, Hq. simpl. rewrite <- !app_assoc. reflexivity. }
    split; [exact Hreg|exact Hdead].
Qed.
End CacheFacts.

Section SlotFacts.
Context (hdr : babyfs_h).

Lemma slot_addr_set_kc_free (l : list Z) (c : kmem_cache) (i : nat) :
  slot_addr (set_kc_free l c) i = slot_addr c i.
Proof. reflexivity. Qed.

(** Two slots of one arena do not overlap. *)
Lemma inode_of_slot_inj (c : kmem_cache) (i j : nat) :
  0 < kc_size c ->
  inode_of_slot hdr c i = inode_of_slot hdr c j -> i = j.
Proof.
  unfold inode_of_slot, slot_addr. intros Hsize Heq. nia.
Qed.

(** Constructing the slots [a], ..., [a + n - 1], none of which was
    constructed before, constructs each of them once. *)
Lemma ctor_fold (c : kmem_cache) (n : nat) :
  0 < kc_size c ->
  forall (a : nat) (inits : gmap Z nat),
    inits_ok hdr c a inits ->
    inits_ok hdr c (a + n)
      (fold_left (fun acc obj => init_once hdr obj acc)
         (map (slot_addr c) (seq a n)) inits).
Proof.
  intros Hsize. induction n as [|n IH]; intros a inits Hok; simpl.
  - by rewrite Nat.add_0_r.
  - replace (a + S n)%nat with (S a + n)%nat by lia.
    apply IH. intros i.
    unfold init_once, inode_init_once.
    change (slot_addr c a + offsetof_vfs_inode hdr) with (inode_of_slot hdr c a).
    destruct (decide (i = a)) as [->|Hne].
    + rewrite lookup_insert_eq.
      destruct (Hok a) as [_ Hnone]. rewrite Hnone by lia. simpl.
      split; [done|lia].
    + rewrite lookup_insert_ne
        by (intros Heq%inode_of_slot_inj; [congruence|done]).
      destruct (Hok i) as [Hsome Hnone].
      split; intros Hi; [apply Hsome|apply Hnone]; lia.
Qed.

Lemma baby_alloc_inode_state (g : bool) (m : mstate) :
  (baby_alloc_inode hdr g m).2 = (kmem_cache_alloc g m).2.
Proof.
  unfold baby_alloc_inode. destruct (kmem_cache_alloc g m) as [bbi m1]. simpl.
  by destruct (bbi =? NULL).
Qed.

(** An allocation keeps the invariant: a slot from the free list is
    handed out as it is, and fresh slots are constructed as they are carved. *)
Lemma kmem_cache_alloc_ctor_once (base : Z) (g : bool) (m : mstate) :
  0 < sizeof_baby_inode_info hdr ->
  ctor_once hdr base m -> ctor_once hdr base (kmem_cache_alloc g m).2.
Proof.
  intros Hsize (c & Hc & Hbase & Hsz & Hctor & Hok).
  unfold kmem_cache_alloc. rewrite Hc.
  destruct (kc_live c); simpl; [|by exists c].
  destruct (kc_free c) as [|obj rest] eqn:Hfree.
  - destruct g; [|by exists c].
    unfold cache_grow. rewrite Hctor. simpl.
    pose proof (ctor_fold c (kc_objs_per_slab c) ltac:(lia) _ _ Hok) as Hgrown.
    destruct (map (slot_addr c) (seq (kc_carved c) (kc_objs_per_slab c)))
      as [|obj rest]; simpl;
      (eexists; split; [reflexivity|]; split; [exact Hbase|];
       split; [exact Hsz|]; split; [exact Hctor|]; exact Hgrown).
  - simpl. eexists. split; [reflexivity|]. split; [exact Hbase|].
    split; [exact Hsz|]. split; [exact Hctor|]. exact Hok.
Qed.

Lemma kmem_cache_free_ctor_once (base obj : Z) (m : mstate) :
  ctor_once hdr base m -> ctor_once hdr base (kmem_cache_free obj m).
Proof.
  intros (c & Hc & Hbase & Hsz & Hctor & Hok).
  unfold kmem_cache_free. simpl. rewrite Hc.
  destruct (kc_live c); simpl; [|by exists c].
  eexists. split; [reflexivity|]. split; [exact Hbase|].
  split; [exact Hsz|]. split; [exact Hctor|]. exact Hok.
Qed.

Lemma run_op_ctor_once (base : Z) (op : pool_op) (m : mstate) :
  0 < sizeof_baby_inode_info hdr ->
  ctor_once hdr base m -> ctor_once hdr base (run_op hdr op m).
Proof.
  intros Hsize Hinv. destruct op as [g|inode|]; simpl.
  - rewrite baby_alloc_inode_state. by apply kmem_cache_alloc_ctor_once.
  - destruct Hinv as (c & ?). by exists c.
  - unfold rcu_run_one. destruct (rcu_pending m) as [|cb q]; [done|].
    rewrite run_callback_frees. apply kmem_cache_free_ctor_once.
    destruct Hinv as (c & ?). by exists c.
Qed.

Lemma run_ops_ctor_once (base : Z) (ops : list pool_op) :
  0 < sizeof_baby_inode_info hdr ->
  forall m, ctor_once hdr base m -> ctor_once hdr base (run_ops hdr ops m).
Proof.
  intros Hsize. unfold run_ops.
  induction ops as [|op ops IH]; intros m Hinv; simpl; [done|].
  apply IH. by apply run_op_ctor_once.
Qed.

(** C6: from the creation of the cache on, whatever sequence of
    allocations, reclamations and grace periods follows, the one-time
    initializer has run exactly once on the generic inode of every slot
    carved so far and on no other; an allocation served from the free
    list runs no initializer at all. *)
Theorem init_once_runs_once (ie : init_env) (m : mstate) (base : Z) (per : nat)
    (ops : list pool_op) :
  cache_create ie = Some (base, per) ->
  0 < sizeof_baby_inode_info hdr ->
  (forall i : nat,
     inode_inits m !! inode_of_slot hdr (created_cache hdr base per) i = None) ->
  (exists c,
     baby_inode_cachep (run_ops hdr ops (init_inodecache hdr ie m).2) = Some c /\
     forall i : nat,
       ((i < kc_carved c)%nat ->
        inode_inits (run_ops hdr ops (init_inodecache hdr ie m).2)
          !! inode_of_slot hdr (created_cache hdr base per) i = Some 1%nat) /\
       ((kc_carved c <= i)%nat ->
        inode_inits (run_ops hdr ops (init_inodecache hdr ie m).2)
          !! inode_of_slot hdr (created_cache hdr base per) i = None)) /\
  (forall (g : bool) (m1 : mstate) (c1 : kmem_cache) (obj : Z) (rest : list Z),
     baby_inode_cachep m1 = Some c1 ->
     kc_free c1 = obj :: rest ->
     inode_inits (baby_alloc_inode hdr g m1).2 = inode_inits m1).
Proof.
  intros Hsome Hsize Hfresh. split.
  - assert (Hinit : ctor_once hdr base (init_inodecache hdr ie m).2).
    { unfold init_inodecache, kmem_cache_create_usercopy. rewrite Hsome. simpl.
      exists (created_cache hdr base per).
      split; [reflexivity|]. split; [reflexivity|].
      split; [reflexivity|]. split; [reflexivity|].
      intros i. split; [simpl; lia|]. intros _. apply Hfresh. }
    destruct (run_ops_ctor_once base ops Hsize _ Hinit)
      as (c & Hc & Hbase & Hsz & _ & Hok).
    exists c. split; [exact Hc|]. intros i.
    replace (inode_of_slot hdr (created_cache hdr base per) i)
      with (inode_of_slot hdr c i); [apply Hok|].
    unfold inode_of_slot, slot_addr. rewrite Hbase, Hsz. reflexivity.
  - intros g m1 c1 obj rest Hc1 Hfree.
    rewrite baby_alloc_inode_state. unfold kmem_cache_alloc.
    rewrite Hc1, Hfree. by destruct (kc_live c1).
Qed.

Lemma kmem_cache_alloc_live (g : bool) (m m1 : mstate) (bbi : Z) :
  kmem_cache_alloc g m = (bbi, m1) ->
  bbi <> NULL ->
  exists c1, baby_inode_cachep m1 = Some c1 /\ kc_live c1 = true.
Proof.
  unfold kmem_cache_alloc, cache_grow. intros Halloc Hbbi.
  destruct (baby_inode_cachep m) as [c|]; [|by inversion Halloc].
  destruct (kc_live c) eqn:Hlive; simpl in Halloc; [|by inversion Halloc].
  destruct (kc_free c) as [|obj rest].
  - destruct g; [|by inversion Halloc].
    destruct (map (slot_addr c) (seq (kc_carved c) (kc_objs_per_slab c)));
      inversion Halloc; subst; [congruence|].
    eexists. split; [reflexivity|exact Hlive].
  - inversion Halloc; subst. eexists. split; [reflexivity|exact Hlive].
Qed.

(** C10: a successful [baby_alloc_inode] returns the address of the
    [vfs_inode] member of the slot that the cache handed out; from that
    pointer [baby_destroy_inode] queues a callback that computes the very
    same slot and hands it to [kmem_cache_free], so that after the grace
    period the slot is back at the head of the free list. *)
Theorem alloc_destroy_same_slot (g : bool) (m m1 : mstate) (bbi : Z) :
  kmem_cache_alloc g m = (bbi, m1) ->
  bbi <> NULL ->
  let inode := bbi + offsetof_vfs_inode hdr in
  baby_alloc_inode hdr g m = (inode, m1) /\
  BABY_I hdr inode = bbi /\
  rcu_pending (baby_destroy_inode hdr inode m1) =
    rcu_pending m1 ++ [(inode + offsetof_i_rcu hdr, rcu_baby_i_callback)] /\
  (forall m2, run_callback hdr (inode + offsetof_i_rcu hdr, rcu_baby_i_callback) m2
              = kmem_cache_free bbi m2) /\
  (rcu_pending m1 = [] ->
   exists c1,
     baby_inode_cachep m1 = Some c1 /\
     baby_inode_cachep (rcu_run_one hdr (baby_destroy_inode hdr inode m1)) =
       Some (set_kc_free (bbi :: kc_free c1) c1)).
Proof.
  intros Halloc Hbbi inode.
  assert (Hslot : forall off1 off2, container_of (container_of (bbi + off1 + off2) off2) off1 = bbi)
    by (intros; unfold container_of; lia).
  split.
  { unfold baby_alloc_inode. rewrite Halloc.
    apply Z.eqb_neq in Hbbi. by rewrite Hbbi. }
  split. { unfold BABY_I, container_of, inode. lia. }
  split; [reflexivity|].
  split.
  { intros m2. simpl. unfold baby_i_callback, BABY_I, inode. by rewrite Hslot. }
  intros Hq.
  destruct (kmem_cache_alloc_live g m m1 bbi Halloc Hbbi) as (c1 & Hc1 & Hlive).
  exists c1. split; [exact Hc1|].
  unfold rcu_run_one, baby_destroy_inode, call_rcu. simpl. rewrite Hq. simpl.
  unfold baby_i_callback, BABY_I, inode. rewrite Hslot.
  erewrite kmem_cache_free_live; [reflexivity|exact Hc1|exact Hlive].
Qed.
End SlotFacts.

(** *** The inode cache: concrete runs *)

(** Witness of [destroy_inodecache_drains_first], with two frees pending. *)
Lemma destroy_inodecache_drains_first_witness :
  klog (destroy_inodecache Sample.hdr Sample.m_pending) =
    [EvCacheCreate true; EvRegister 0;
     EvCacheFree 0x100000; EvCacheFree (0x100000 + 768);
     EvRcuBarrier; EvCacheDestroy 0] /\
  rcu_pending (destroy_inodecache Sample.hdr Sample.m_pending) = [] /\
  bad_cache_use (destroy_inodecache Sample.hdr Sample.m_pending) = false.
Proof.
  destruct (destroy_inodecache_drains_first Sample.hdr Sample.m_pending _
              eq_refl eq_refl) as (Hlog & _ & Hq & Hbad & _).
  exact (conj Hlog (conj Hq Hbad)).
Defined.

(** Witness of [init_exit_order]: a load that succeeds. *)
Lemma init_exit_order_witness :
  (init_babyfs Sample.hdr Sample.ie_ok Sample.m0).1 = 0 /\
  klog (init_babyfs Sample.hdr Sample.ie_ok Sample.m0).2 =
    [EvCacheCreate true; EvRegister 0] /\
  registered (init_babyfs Sample.hdr Sample.ie_ok Sample.m0).2 = true.
Proof.
  destruct (init_exit_order Sample.hdr Sample.ie_ok Sample.m0)
    as (_ & _ & Hok & _).
  destruct (Hok (ex_intro _ _ eq_refl) eq_refl) as (Hret & Hlog & Hreg & _).
  exact (conj Hret (conj Hlog Hreg)).
Defined.

(** Witness of [init_once_runs_once]: after three cycles on slot 0 and a
    second slab, eight slots are carved and slot 0 was constructed once. *)
Lemma init_once_runs_once_witness :
  exists c,
    baby_inode_cachep
      (run_ops Sample.hdr Sample.churn
         (init_inodecache Sample.hdr Sample.ie_ok Sample.m0).2) = Some c /\
    kc_carved c = 8%nat /\
    inode_inits
      (run_ops Sample.hdr Sample.churn
         (init_inodecache Sample.hdr Sample.ie_ok Sample.m0).2)
      !! (0x100000 + 128) = Some 1%nat.
Proof.
  assert (Hsize : 0 < sizeof_baby_inode_info Sample.hdr) by (simpl; lia).
  destruct (init_once_runs_once Sample.hdr Sample.ie_ok Sample.m0 0x100000 4
              Sample.churn eq_refl Hsize (fun i => eq_refl))
    as ((c & Hc & Hok) & _).
  exists c. split; [exact Hc|].
  assert (Hcarved : kc_carved c = 8%nat).
  { vm_compute in Hc. injection Hc as <-. reflexivity. }
  split; [exact Hcarved|].
  apply (Hok 0%nat). rewrite Hcarved. lia.
Defined.

(** Witness of [alloc_destroy_same_slot]: the first allocation. *)
Lemma alloc_destroy_same_slot_witness :
  (baby_alloc_inode Sample.hdr true Sample.m_loaded).1 = 0x100000 + 128 /\
  BABY_I Sample.hdr (0x100000 + 128) = 0x100000.
Proof.
  assert (Hbbi : 0x100000 <> NULL) by discriminate.
  destruct (alloc_destroy_same_slot Sample.hdr true Sample.m_loaded
              (kmem_cache_alloc true Sample.m_loaded).2 0x100000
              eq_refl Hbbi) as (Halloc & Hslot & _).
  split; [|exact Hslot].
  rewrite Halloc. reflexivity.
Defined.

(** ** Mount: every path of [babyfs_fill_super] *)

Section MountPaths.
Context (hdr : babyfs_h).

(** A failure before the block is read: the object, when it was obtained,
    stays on the heap, and the block size is switched when the device took it. *)
Lemma fill_super_early_eq (e : mount_env) (sb : super_block) (k : kstate) :
  kzalloc_ptr e = NULL \/ set_blocksize_ok e = false \/
    BABYFS_BLOCK_SIZE hdr = 0 \/ bread_data e = None ->
  babyfs_fill_super hdr e sb k =
    if kzalloc_ptr e =? NULL then (- ENOMEM, sb, k)
    else (- ENOMEM,
          if set_blocksize_ok e then set_s_blocksize (BABYFS_BLOCK_SIZE hdr) sb else sb,
          set_kheap (<[kzalloc_ptr e := {| s_babysb := None; s_sbh := None |}]> (kheap k)) k).
Proof.
  intros H.
  unfold babyfs_fill_super, kzalloc, sb_set_blocksize, sb_bread, failed.
  destruct (kzalloc_ptr e =? NULL) eqn:Hp; simpl; [done|].
  rewrite Hp.
  destruct (set_blocksize_ok e) eqn:Hbs; simpl; [|done].
  destruct (BABYFS_BLOCK_SIZE hdr =? 0) eqn:Hsz; [done|].
  destruct (bread_data e) eqn:Hd; [|done].
  apply Z.eqb_neq in Hp, Hsz.
  destruct H as [?|[?|[?|?]]]; congruence.
Qed.

(** The two ways through [babyfs_fill_super]. *)
Lemma fill_super_cases (e : mount_env) :
  (kzalloc_ptr e = NULL \/ set_blocksize_ok e = false \/
     BABYFS_BLOCK_SIZE hdr = 0 \/ bread_data e = None) \/
  (exists d, kzalloc_ptr e <> NULL /\ set_blocksize_ok e = true /\
             BABYFS_BLOCK_SIZE hdr <> 0 /\ bread_data e = Some d).
Proof.
  destruct (decide (kzalloc_ptr e = NULL)); [tauto|].
  destruct (set_blocksize_ok e); [|tauto].
  destruct (decide (BABYFS_BLOCK_SIZE hdr = 0)); [tauto|].
  destruct (bread_data e) as [d|]; [|tauto].
  right. by exists d.
Qed.

(** X1: mount returns 0 exactly when every kernel service it relies on
    succeeded: the allocation, the block size, the read, the inode
    provider and the root dentry. *)
Theorem fill_super_succeeds_iff (e : mount_env) (sb : super_block) (k : kstate) :
  (babyfs_fill_super hdr e sb k).1.1 = 0 <->
  kzalloc_ptr e <> NULL /\ set_blocksize_ok e = true /\
  BABYFS_BLOCK_SIZE hdr <> 0 /\ is_Some (bread_data e) /\
  IS_ERR (iget_ptr e) = false /\ make_root_ptr e <> NULL.
Proof.
  destruct (fill_super_cases e) as [Hearly|(d & Hp & Hbs & Hsz & Hd)].
  - rewrite (fill_super_early hdr e sb k Hearly). split; [discriminate|].
    intros (? & ? & ? & [d Hd] & _). destruct Hearly as [?|[?|[?|?]]]; congruence.
  - rewrite (fill_super_read hdr e sb k d) by done.
    destruct (IS_ERR (iget_ptr e)) eqn:Herr; simpl.
    { apply PTR_ERR_range in Herr. split; [lia|]. intros (_ & _ & _ & _ & ? & _).
      discriminate. }
    destruct (make_root_ptr e =? NULL) eqn:Hroot; simpl.
    + apply Z.eqb_eq in Hroot. split; [discriminate|]. tauto.
    + apply Z.eqb_neq in Hroot. split; [|done]. intros _.
      rewrite Hd. repeat split; done.
Qed.

(** X2: whatever the kernel answers, mount returns 0 or a negative error
    number between -MAX_ERRNO and -1. *)
Theorem fill_super_returns_errno (e : mount_env) (sb : super_block) (k : kstate) :
  (babyfs_fill_super hdr e sb k).1.1 = 0 \/
  - MAX_ERRNO <= (babyfs_fill_super hdr e sb k).1.1 < 0.
Proof.
  destruct (fill_super_cases e) as [Hearly|(d & Hp & Hbs & Hsz & Hd)].
  - rewrite (fill_super_early hdr e sb k Hearly). right. unfold MAX_ERRNO, ENOMEM. lia.
  - rewrite (fill_super_read hdr e sb k d) by done.
    destruct (IS_ERR (iget_ptr e)) eqn:Herr; simpl.
    { right. by apply PTR_ERR_range. }
    destruct (make_root_ptr e =? NULL); simpl; [right|left; done].
    unfold MAX_ERRNO, ENOMEM. lia.
Qed.

(** X3: reference counts balance on every path.  A mount that fails
    leaves every buffer's count as it found it; a mount that succeeds holds
    exactly one more reference, on the superblock's buffer. *)
Theorem fill_super_refs_balance (e : mount_env) (sb : super_block) (k : kstate)
    (key : nat * Z) :
  refs (babyfs_fill_super hdr e sb k).2 key =
    if bool_decide ((babyfs_fill_super hdr e sb k).1.1 = 0 /\ key = super_key hdr sb)
    then S (refs k key) else refs k key.
Proof.
  destruct (fill_super_cases e) as [Hearly|(d & Hp & Hbs & Hsz & Hd)].
  - rewrite (fill_super_early_eq e sb k Hearly).
    destruct (kzalloc_ptr e =? NULL); cbn [fst snd];
      (rewrite bool_decide_eq_false_2; [done|intros [? _]; discriminate]).
  - rewrite (fill_super_read hdr e sb k d) by done.
    destruct (IS_ERR (iget_ptr e)) eqn:Herr; cbn [fst snd].
    { rewrite bool_decide_eq_false_2
        by (intros [? _]; apply PTR_ERR_range in Herr; lia).
      by apply brelse_after_get. }
    destruct (make_root_ptr e =? NULL); cbn [fst snd].
    { rewrite bool_decide_eq_false_2 by (intros [? _]; discriminate).
      by apply brelse_after_get. }
    unfold refs at 1. simpl.
    destruct (decide (key = super_key hdr sb)) as [->|Hne].
    + rewrite bool_decide_eq_true_2 by done. by rewrite lookup_insert_eq.
    + rewrite bool_decide_eq_false_2 by tauto. by rewrite lookup_insert_ne.
Qed.

(** X4: mount writes the heap at one address only, that of its own
    [baby_sb_info]: every other object is as it was, on every path. *)
Theorem fill_super_heap_frame (e : mount_env) (sb : super_block) (k : kstate) (q : Z) :
  q <> kzalloc_ptr e ->
  kheap (babyfs_fill_super hdr e sb k).2 !! q = kheap k !! q.
Proof.
  intros Hq.
  destruct (fill_super_cases e) as [Hearly|(d & Hp & Hbs & Hsz & Hd)].
  - rewrite (fill_super_early_eq e sb k Hearly).
    destruct (kzalloc_ptr e =? NULL); simpl; [done|]. by rewrite lookup_insert_ne.
  - rewrite (fill_super_read hdr e sb k d) by done.
    destruct (IS_ERR (iget_ptr e)); [|destruct (make_root_ptr e =? NULL)];
      cbn [fst snd]; rewrite ?kheap_brelse; simpl;
      rewrite lookup_insert_ne by done; by rewrite lookup_insert_ne.
Qed.

(** X5: when the superblock cannot be read, mount fails with -ENOMEM
    (OutOfMemory), the device stays switched to the new block size, and
    neither the global block count, nor any reference count, nor the rest
    of the super block has changed. *)
Theorem fill_super_read_failure (e : mount_env) (sb : super_block) (k : kstate) :
  kzalloc_ptr e <> NULL ->
  set_blocksize_ok e = true ->
  bread_data e = None ->
  exists k',
    babyfs_fill_super hdr e sb k =
      (- ENOMEM, set_s_blocksize (BABYFS_BLOCK_SIZE hdr) sb, k') /\
    kind_of (- ENOMEM) = Some OutOfMemory /\
    NR_DSTORE_BLOCKS k' = NR_DSTORE_BLOCKS k /\
    b_count k' = b_count k.
Proof.
  intros Hp%Z.eqb_neq Hbs Hd.
  rewrite fill_super_early_eq by tauto. rewrite Hp, Hbs.
  eexists. split; [reflexivity|]. done.
Qed.

(** X6: when the root dentry cannot be made, mount fails with -ENOMEM,
    releases the buffer (every reference count is what it was before the
    call) and leaves [s_root] NULL. *)
Theorem fill_super_no_root_dentry (e : mount_env) (sb : super_block) (k : kstate)
    (d : baby_super_block) :
  kzalloc_ptr e <> NULL ->
  set_blocksize_ok e = true ->
  BABYFS_BLOCK_SIZE hdr <> 0 ->
  bread_data e = Some d ->
  IS_ERR (iget_ptr e) = false ->
  make_root_ptr e = NULL ->
  (babyfs_fill_super hdr e sb k).1.1 = - ENOMEM /\
  s_root (babyfs_fill_super hdr e sb k).1.2 = NULL /\
  (forall key, refs (babyfs_fill_super hdr e sb k).2 key = refs k key).
Proof.
  intros Hp Hbs Hsz Hd Herr Hroot.
  rewrite (fill_super_read hdr e sb k d) by done.
  rewrite Herr, Hroot. cbn [fst snd]. split; [done|]. split; [done|].
  intros key. by apply brelse_after_get.
Qed.

(** X7: once the superblock is read its block count is in the global
    [NR_DSTORE_BLOCKS], whether the mount then succeeds or not; a mount
    that fails on the root inode or on the root dentry has overwritten
    the global all the same. *)
Theorem fill_super_failure_overwrites_global (e : mount_env) (sb : super_block)
    (k : kstate) (d : baby_super_block) :
  kzalloc_ptr e <> NULL ->
  set_blocksize_ok e = true ->
  BABYFS_BLOCK_SIZE hdr <> 0 ->
  bread_data e = Some d ->
  NR_DSTORE_BLOCKS (babyfs_fill_super hdr e sb k).2 = to_int (nr_dstore_blocks d) /\
  (IS_ERR (iget_ptr e) = true \/ make_root_ptr e = NULL ->
   (babyfs_fill_super hdr e sb k).1.1 <> 0).
Proof.
  intros Hp Hbs Hsz Hd.
  rewrite (fill_super_read hdr e sb k d) by done. split.
  - destruct (IS_ERR (iget_ptr e)); [|destruct (make_root_ptr e =? NULL)];
      cbn [fst snd]; unfold brelse;
      try destruct (refs _ _); reflexivity.
  - intros Hfail.
    destruct (IS_ERR (iget_ptr e)) eqn:Herr; cbn [fst snd].
    { apply PTR_ERR_range in Herr. lia. }
    destruct Hfail as [?|Hroot]; [discriminate|]. rewrite Hroot. simpl. discriminate.
Qed.

(** X8: the error of the inode provider reaches the caller exactly.  For
    every error number from 1 to MAX_ERRNO, when [baby_iget] answers
    ERR_PTR(-errno) mount returns -errno, and every reference count is
    what it was before the call. *)
Theorem fill_super_propagates_errno (e : mount_env) (sb : super_block) (k : kstate)
    (d : baby_super_block) (errno : Z) :
  kzalloc_ptr e <> NULL ->
  set_blocksize_ok e = true ->
  BABYFS_BLOCK_SIZE hdr <> 0 ->
  bread_data e = Some d ->
  0 < errno <= MAX_ERRNO ->
  iget_ptr e = ERR_PTR (- errno) ->
  (babyfs_fill_super hdr e sb k).1.1 = - errno /\
  (forall key, refs (babyfs_fill_super hdr e sb k).2 key = refs k key).
Proof.
  intros Hp Hbs Hsz Hd Herrno Hptr.
  assert (Herr : IS_ERR (iget_ptr e) = true) by (rewrite Hptr; by apply IS_ERR_ERR_PTR).
  destruct (fill_super_root_error hdr e sb k d Hp Hbs Hsz Hd Herr) as (Hret & Hrefs & _).
  split; [|exact Hrefs].
  rewrite Hret, Hptr. by apply PTR_ERR_ERR_PTR.
Qed.
End MountPaths.

(** ** Unmount: what it restores and what it leaves *)

Section UnmountFacts.
Context (hdr : babyfs_h).


Lemma refs_brelse_le (bh : option buffer_head) (k : kstate) (key : nat * Z) :
  (refs (brelse bh k) key <= refs k key)%nat.
Proof.
  destruct bh as [b|]; [|done]. unfold brelse.
  destruct (refs k (bh_key b)) as [|n] eqn:Hrefs; [done|].
  rewrite refs_set_b_count.
  destruct (decide (bh_key b = key)) as [<-|Hne].
  - rewrite lookup_insert_eq. simpl. lia.
  - by rewrite lookup_insert_ne.
Qed.

(** X10: what unmount never does.  Whenever [baby_put_super] runs to its
    end, the global block count, the root dentry pointer, the operation
    table, the magic and the block size are as before; no object other
    than the instance's own [baby_sb_info] leaves or enters the heap; no
    reference count grows; and a further call changes nothing. *)
Theorem baby_put_super_frame (sb sb' : super_block) (k k' : kstate) :
  baby_put_super sb k = Some (sb', k') ->
  NR_DSTORE_BLOCKS k' = NR_DSTORE_BLOCKS k /\
  s_fs_info sb' = NULL /\
  (s_root sb', s_op sb', s_magic sb', s_blocksize sb', s_bdev sb')
    = (s_root sb, s_op sb, s_magic sb, s_blocksize sb, s_bdev sb) /\
  (forall q, q <> s_fs_info sb -> kheap k' !! q = kheap k !! q) /\
  (forall key, (refs k' key <= refs k key)%nat) /\
  baby_put_super sb' k' = Some (sb', k').
Proof.
  unfold baby_put_super, BABY_SB. intros Hput.
  destruct (s_fs_info sb =? NULL) eqn:Hnull.
  - injection Hput as <- <-. apply Z.eqb_eq in Hnull.
    rewrite Hnull. simpl. repeat split; done.
  - destruct (kheap k !! s_fs_info sb) as [info|] eqn:Hinfo; [|discriminate].
    injection Hput as <- <-. simpl.
    split. { unfold kfree. destruct (s_fs_info sb =? NULL); simpl;
             unfold brelse; destruct (s_sbh info) as [b|]; try done;
             by destruct (refs k (bh_key b)). }
    split; [done|]. split; [done|].
    split. { intros q Hq. unfold kfree. rewrite Hnull. simpl.
             rewrite lookup_delete_ne by done. by rewrite kheap_brelse. }
    split; [|done].
    intros key. rewrite refs_kfree. apply refs_brelse_le.
Qed.
End UnmountFacts.

(** ** The inode cache: allocation, reuse and the module life cycle *)

Section CacheUse.
Context (hdr : babyfs_h).

(** X11: the pointer arithmetic of [baby_alloc_inode] cannot turn a
    failure into a pointer or a slot into NULL: with a non-negative member
    offset and a non-negative slot address, the function returns NULL
    exactly when the cache gave no slot. *)
Theorem baby_alloc_inode_null_iff (g : bool) (m : mstate) :
  0 <= offsetof_vfs_inode hdr ->
  0 <= (kmem_cache_alloc g m).1 ->
  (baby_alloc_inode hdr g m).1 = NULL <-> (kmem_cache_alloc g m).1 = NULL.
Proof.
  intros Hoff Hslot. unfold baby_alloc_inode.
  destruct (kmem_cache_alloc g m) as [bbi m1]. simpl in *.
  destruct (bbi =? NULL) eqn:Hbbi; simpl.
  - apply Z.eqb_eq in Hbbi. done.
  - apply Z.eqb_neq in Hbbi. unfold NULL in *. split; intros; lia.
Qed.

(** X12: [baby_destroy_inode] frees nothing at once.  An allocation that
    follows it gets the very pointer, and leaves the very cache, that it
    would have without the destroy; only the queue differs. *)
Theorem destroy_then_alloc_commute (g : bool) (inode : Z) (m : mstate) :
  baby_alloc_inode hdr g (baby_destroy_inode hdr inode m) =
    ((baby_alloc_inode hdr g m).1,
     baby_destroy_inode hdr inode (baby_alloc_inode hdr g m).2).
Proof.
  unfold baby_alloc_inode, baby_destroy_inode, call_rcu, kmem_cache_alloc,
    cache_grow. simpl.
  destruct (baby_inode_cachep m) as [c|]; simpl; [|done].
  destruct (kc_live c); simpl; [|done].
  destruct (kc_free c) as [|obj rest]; simpl.
  - destruct g; simpl; [|done].
    destruct (map (slot_addr c) (seq (kc_carved c) (kc_objs_per_slab c)))
      as [|obj rest]; simpl; [done|].
    by destruct (obj =? NULL).
  - by destruct (obj =? NULL).
Qed.


Lemma kmem_cache_alloc_keeps_live (g : bool) (m : mstate) (c : kmem_cache) :
  baby_inode_cachep m = Some c ->
  kc_live c = true ->
  exists c',
    baby_inode_cachep (kmem_cache_alloc g m).2 = Some c' /\ kc_live c' = true /\
    bad_cache_use (kmem_cache_alloc g m).2 = bad_cache_use m /\
    registered (kmem_cache_alloc g m).2 = registered m.
Proof.
  intros Hc Hlive. unfold kmem_cache_alloc, cache_grow. rewrite Hc, Hlive. simpl.
  destruct (kc_free c) as [|obj rest]; simpl.
  - destruct g; [|by exists c].
    destruct (map (slot_addr c) (seq (kc_carved c) (kc_objs_per_slab c)));
      simpl; by eexists.
  - by eexists.
Qed.

(** Between init and exit the cache stays live and is never misused. *)
Lemma run_ops_keeps_live (ops : list pool_op) :
  forall (m : mstate) (c : kmem_cache),
    baby_inode_cachep m = Some c ->
    kc_live c = true ->
    exists c',
      baby_inode_cachep (run_ops hdr ops m) = Some c' /\ kc_live c' = true /\
      bad_cache_use (run_ops hdr ops m) = bad_cache_use m /\
      registered (run_ops hdr ops m) = registered m.
Proof.
  unfold run_ops.
  induction ops as [|op ops IH]; intros m c Hc Hlive; simpl; [by exists c|].
  assert (Hstep : exists c',
             baby_inode_cachep (run_op hdr op m) = Some c' /\ kc_live c' = true /\
             bad_cache_use (run_op hdr op m) = bad_cache_use m /\
             registered (run_op hdr op m) = registered m).
  { destruct op as [g|inode|]; simpl.
    - rewrite baby_alloc_inode_state. by apply (kmem_cache_alloc_keeps_live g m c).
    - by exists c.
    - unfold rcu_run_one. destruct (rcu_pending m) as [|cb q]; [by exists c|].
      rewrite run_callback_frees.
      erewrite kmem_cache_free_live; [|exact Hc|exact Hlive]. by eexists. }
  destruct Hstep as (c1 & Hc1 & Hlive1 & Hbad1 & Hreg1).
  destruct (IH _ c1 Hc1 Hlive1) as (c' & Hc' & Hlive' & Hbad' & Hreg').
  exists c'. rewrite Hbad', Hreg'. done.
Qed.

(** X14: a whole module life.  After a successful [init_babyfs], whatever
    allocations, destroys and grace periods follow, [exit_babyfs] ends with
    the filesystem unregistered, no reclamation pending and the cache
    destroyed, and at no point was a missing or destroyed cache used. *)
Theorem module_life_is_safe (ie : init_env) (m : mstate) (ops : list pool_op) :
  is_Some (cache_create ie) ->
  register_err ie = 0 ->
  let m' := exit_babyfs hdr (run_ops hdr ops (init_babyfs hdr ie m).2) in
  bad_cache_use m' = bad_cache_use m /\
  rcu_pending m' = [] /\
  registered m' = false /\
  exists c, baby_inode_cachep m' = Some c /\ kc_live c = false.
Proof.
  intros [[base per] Hsome] Herr m'.
  assert (Hinit : (init_babyfs hdr ie m).2 =
                  set_registered true
                    (log (EvRegister 0)
                       (log (EvCacheCreate true)
                          (set_cachep (Some (created_cache hdr base per)) m)))).
  { unfold init_babyfs, init_inodecache, kmem_cache_create_usercopy,
      register_filesystem.
    rewrite Hsome, Herr. reflexivity. }
  destruct (run_ops_keeps_live ops (init_babyfs hdr ie m).2 (created_cache hdr base per))
    as (c1 & Hc1 & Hlive1 & Hbad1 & _); [by rewrite Hinit|done|].
  assert (Hbad0 : bad_cache_use (init_babyfs hdr ie m).2 = bad_cache_use m)
    by (by rewrite Hinit).
  remember (run_ops hdr ops (init_babyfs hdr ie m).2) as m2 eqn:Hm2.
  unfold m', exit_babyfs.
  destruct (destroy_inodecache_registered hdr (unregister_filesystem m2) c1 Hc1 Hlive1)
    as (Hreg & _ & Hdead).
  destruct (rcu_barrier_live hdr (unregister_filesystem m2) c1 Hc1 Hlive1)
    as (_ & Hq & Hbad & _ & _ & Hcache).
  split; [|split; [|split; [exact Hreg|exact Hdead]]].
  - unfold destroy_inodecache, kmem_cache_destroy.
    remember (rcu_barrier hdr (unregister_filesystem m2)) as mb.
    rewrite Hcache. simpl. rewrite Hbad. simpl. by rewrite Hbad1.
  - unfold destroy_inodecache, kmem_cache_destroy.
    remember (rcu_barrier hdr (unregister_filesystem m2)) as mb.
    rewrite Hcache. simpl. exact Hq.
Qed.
End CacheUse.

(** ** The inode cache: inodes in use never alias *)

Section PoolDistinct.
Context (hdr : babyfs_h).

Lemma slots_ok_perm (c : kmem_cache) (l l' : list Z) :
  l ≡ₚ l' -> slots_ok c l -> slots_ok c l'.
Proof. intros Hperm [Hnd Hall]. split; by rewrite <- Hperm. Qed.

Lemma slots_ok_tail (c : kmem_cache) (x : Z) (l : list Z) :
  slots_ok c (x :: l) -> slots_ok c l.
Proof.
  intros [Hnd Hall]. apply NoDup_cons in Hnd as [_ Hnd].
  apply Forall_cons in Hall as [_ Hall]. by split.
Qed.

(** Only the base, the slot size and the number of carved slots matter. *)
Lemma slots_ok_ext (c c' : kmem_cache) (l : list Z) :
  kc_base c' = kc_base c ->
  kc_size c' = kc_size c ->
  (kc_carved c <= kc_carved c')%nat ->
  slots_ok c l -> slots_ok c' l.
Proof.
  intros Hbase Hsz Hcarved [Hnd Hall]. split; [done|].
  eapply Forall_impl; [exact Hall|]. intros s (i & Hi & ->).
  exists i. split; [lia|]. unfold slot_addr. by rewrite Hbase, Hsz.
Qed.

Lemma slot_addr_inj (c : kmem_cache) (i j : nat) :
  0 < kc_size c -> slot_addr c i = slot_addr c j -> i = j.
Proof. unfold slot_addr. intros Hsize Heq. nia. Qed.

(** Carving adds slots that are new and distinct. *)
Lemma slots_ok_grow (c : kmem_cache) (l : list Z) :
  0 < kc_size c ->
  slots_ok c l ->
  slots_ok (set_kc_carved (kc_carved c + kc_objs_per_slab c) c)
    (map (slot_addr c) (seq (kc_carved c) (kc_objs_per_slab c)) ++ l).
Proof.
  intros Hsize [Hnd Hall].
  change (map (slot_addr c) (seq (kc_carved c) (kc_objs_per_slab c)))
    with (slot_addr c <$> seq (kc_carved c) (kc_objs_per_slab c)).
  split.
  - apply NoDup_app. split; [|split; [|done]].
    + apply NoDup_fmap_2_strong; [|apply NoDup_seq].
      intros i j _ _. by apply slot_addr_inj.
    + intros s (i & -> & Hi%elem_of_seq)%list_elem_of_fmap Hin.
      rewrite Forall_forall in Hall.
      destruct (Hall _ Hin) as (j & Hj & Heq).
      apply slot_addr_inj in Heq; [lia|done].
  - apply Forall_app. split.
    + apply Forall_fmap, Forall_forall. intros i Hi%elem_of_seq.
      exists i. split; [simpl; lia|done].
    + eapply Forall_impl; [exact Hall|]. intros s (i & Hi & ->).
      exists i. split; [simpl; lia|done].
Qed.

(** An allocation keeps the slots in order; the slot it hands out is a
    carved slot that is neither free, nor awaiting reclamation, nor in use. *)
Lemma kmem_cache_alloc_wf (g : bool) (m m1 : mstate) (live : list Z) (bbi : Z) :
  pool_wf hdr m live ->
  kmem_cache_alloc g m = (bbi, m1) ->
  pool_wf hdr m1 live /\
  (bbi <> NULL ->
   exists c1, baby_inode_cachep m1 = Some c1 /\ kc_live c1 = true /\
              0 < kc_size c1 /\ slots_ok c1 (bbi :: slots_of hdr c1 m1 live)).
Proof.
  intros (c & Hc & Hlive & Hsize & Hok) Halloc.
  unfold kmem_cache_alloc, cache_grow in Halloc. rewrite Hc, Hlive in Halloc.
  simpl in Halloc. unfold slots_of in Hok.
  destruct (kc_free c) as [|obj rest] eqn:Hfree.
  - destruct g.
    2:{ injection Halloc as <- <-. split; [|done].
        exists c. unfold slots_of. by rewrite Hfree. }
    pose proof (slots_ok_grow c _ Hsize Hok) as Hgrown.
    destruct (map (slot_addr c) (seq (kc_carved c) (kc_objs_per_slab c)))
      as [|obj rest]; injection Halloc as <- <-; simpl in Hgrown.
    + split; [|done]. eexists. split; [reflexivity|]. split; [done|]. split; [done|].
      exact Hgrown.
    + assert (Hall : slots_ok
                       (set_kc_free rest
                          (set_kc_free (obj :: rest)
                             (set_kc_carved (kc_carved c + kc_objs_per_slab c) c)))
                       (obj :: rest ++ (freed_slot hdr <$> rcu_pending m)
                                    ++ (BABY_I hdr <$> live))).
      { eapply slots_ok_ext; [..|exact Hgrown]; done. }
      split.
      * eexists. split; [reflexivity|]. split; [done|]. split; [done|].
        eapply slots_ok_tail, Hall.
      * intros _. eexists. split; [reflexivity|]. split; [done|]. split; [done|].
        exact Hall.
  - injection Halloc as <- <-. simpl in Hok.
    assert (Hall : slots_ok (set_kc_free rest c)
                     (obj :: rest ++ (freed_slot hdr <$> rcu_pending m)
                                  ++ (BABY_I hdr <$> live))).
    { eapply slots_ok_ext; [..|exact Hok]; done. }
    split.
    + eexists. split; [reflexivity|]. split; [done|]. split; [done|].
      eapply slots_ok_tail, Hall.
    + intros _. eexists. split; [reflexivity|]. split; [done|]. split; [done|].
      exact Hall.
Qed.

Lemma BABY_I_vfs_inode (bbi : Z) : BABY_I hdr (bbi + offsetof_vfs_inode hdr) = bbi.
Proof. unfold BABY_I, container_of. lia. Qed.

Lemma freed_slot_i_rcu (inode : Z) (f : rcu_func) :
  freed_slot hdr (inode + offsetof_i_rcu hdr, f) = BABY_I hdr inode.
Proof. unfold freed_slot, container_of. simpl. f_equal. lia. Qed.

Lemma filter_ne_absent (x : Z) (l : list Z) :
  x ∉ l -> filter (fun y => y <> x) l = l.
Proof.
  induction l as [|a l IH]; [done|].
  intros [Hne Hnotin]%not_elem_of_cons.
  rewrite filter_cons_True by done. by rewrite IH.
Qed.

(** Taking one inode out of a list without repetition. *)
Lemma filter_ne_perm (x : Z) (l : list Z) :
  NoDup l -> x ∈ l -> l ≡ₚ x :: filter (fun y => y <> x) l.
Proof.
  induction l as [|a l IH]; intros Hnd Hin; [by apply elem_of_nil in Hin|].
  apply NoDup_cons in Hnd as [Ha Hnd].
  destruct (decide (a = x)) as [->|Hne].
  - rewrite filter_cons_False by (intros H; by apply H).
    by rewrite filter_ne_absent.
  - rewrite filter_cons_True by done.
    apply elem_of_cons in Hin as [->|Hin]; [done|].
    rewrite (IH Hnd Hin) at 1. apply perm_swap.
Qed.

Lemma perm_move (a : Z) (l1 l2 l3 : list Z) :
  a :: l1 ++ l2 ++ l3 ≡ₚ l1 ++ l2 ++ a :: l3.
Proof. rewrite !app_assoc. apply Permutation_middle. Qed.

(** Each step of a sequence that respects the rule keeps the slots in order. *)
Lemma step_tracked_wf (op : pool_op) (m m' : mstate) (live live' : list Z) :
  pool_wf hdr m live ->
  step_tracked hdr op m live = Some (m', live') ->
  pool_wf hdr m' live'.
Proof.
  intros Hwf Hstep. destruct op as [g|inode|]; simpl in Hstep.
  - unfold baby_alloc_inode in Hstep.
    destruct (kmem_cache_alloc g m) as [bbi m1] eqn:Halloc.
    destruct (kmem_cache_alloc_wf g m m1 live bbi Hwf Halloc) as [Hwf1 Hbbi].
    destruct (bbi =? NULL) eqn:Hnull; simpl in Hstep.
    { by inversion Hstep; subst. }
    destruct (bbi + offsetof_vfs_inode hdr =? NULL); inversion Hstep; subst; [done|].
    apply Z.eqb_neq in Hnull.
    destruct (Hbbi Hnull) as (c1 & Hc1 & Hlive1 & Hsize1 & Hok1).
    exists c1. split; [done|]. split; [done|]. split; [done|].
    eapply slots_ok_perm; [|exact Hok1].
    unfold slots_of. rewrite fmap_cons, BABY_I_vfs_inode.
    apply perm_move.
  - destruct (bool_decide (inode ∈ live)) eqn:Hin; [|discriminate].
    apply bool_decide_eq_true in Hin. inversion Hstep; subst.
    destruct Hwf as (c & Hc & Hlive & Hsize & Hok).
    exists c. split; [done|]. split; [done|]. split; [done|].
    eapply slots_ok_perm; [|exact Hok].
    assert (Hnd : NoDup live).
    { destruct Hok as [Hnd _]. unfold slots_of in Hnd.
      apply NoDup_app in Hnd as (_ & _ & Hnd).
      apply NoDup_app in Hnd as (_ & _ & Hnd).
      by apply NoDup_fmap_1 in Hnd. }
    unfold slots_of, baby_destroy_inode, call_rcu. simpl.
    rewrite fmap_app. simpl. rewrite freed_slot_i_rcu.
    rewrite (filter_ne_perm inode live Hnd Hin) at 1.
    rewrite fmap_cons, <- !app_assoc. simpl. reflexivity.
  - inversion Hstep; subst.
    destruct Hwf as (c & Hc & Hlive & Hsize & Hok).
    unfold rcu_run_one. destruct (rcu_pending m) as [|cb q] eqn:Hq.
    { by exists c. }
    rewrite run_callback_frees.
    erewrite kmem_cache_free_live; [|exact Hc|exact Hlive].
    eexists. split; [reflexivity|]. split; [done|]. split; [done|].
    eapply slots_ok_ext; [reflexivity|reflexivity|reflexivity|].
    eapply slots_ok_perm; [|exact Hok].
    unfold slots_of. rewrite Hq. simpl.
    symmetry. apply Permutation_middle.
Qed.

Lemma run_tracked_wf (ops : list pool_op) :
  forall (m m' : mstate) (live live' : list Z),
    pool_wf hdr m live ->
    run_tracked hdr ops m live = Some (m', live') ->
    pool_wf hdr m' live'.
Proof.
  induction ops as [|op ops IH]; intros m m' live live' Hwf Hrun; simpl in Hrun.
  - by inversion Hrun; subst.
  - destruct (step_tracked hdr op m live) as [[m1 live1]|] eqn:Hstep; [|discriminate].
    eapply IH; [|exact Hrun]. by eapply step_tracked_wf.
Qed.

(** X15: inodes in use never alias.  From the creation of the cache on,
    as long as the host destroys only inodes it holds, the inodes in use
    are pairwise distinct and [baby_alloc_inode] never returns one of them. *)
Theorem live_inodes_distinct (ie : init_env) (m m' : mstate) (ops : list pool_op)
    (live : list Z) :
  is_Some (cache_create ie) ->
  0 < sizeof_baby_inode_info hdr ->
  rcu_pending m = [] ->
  run_tracked hdr ops (init_inodecache hdr ie m).2 [] = Some (m', live) ->
  NoDup live /\
  forall g, (baby_alloc_inode hdr g m').1 <> NULL ->
            (baby_alloc_inode hdr g m').1 ∉ live.
Proof.
  intros [[base per] Hsome] Hsize Hq Hrun.
  assert (Hinit : pool_wf hdr (init_inodecache hdr ie m).2 []).
  { unfold init_inodecache, kmem_cache_create_usercopy. rewrite Hsome. simpl.
    eexists. split; [reflexivity|]. split; [done|]. split; [exact Hsize|].
    unfold slots_of. simpl. rewrite Hq. simpl. split; [apply NoDup_nil_2|done]. }
  pose proof (run_tracked_wf ops _ _ _ _ Hinit Hrun) as Hwf.
  assert (Hlive : forall m0 l, pool_wf hdr m0 l -> NoDup l).
  { intros m0 l (c & _ & _ & _ & [Hnd _]). unfold slots_of in Hnd.
    apply NoDup_app in Hnd as (_ & _ & Hnd).
    apply NoDup_app in Hnd as (_ & _ & Hnd).
    by apply NoDup_fmap_1 in Hnd. }
  split; [by eapply Hlive|].
  intros g Hp.
  destruct (baby_alloc_inode hdr g m') as [p m''] eqn:Halloc. simpl in *.
  assert (Hstep : step_tracked hdr (OpAlloc g) m' live = Some (m'', p :: live)).
  { simpl. rewrite Halloc. apply Z.eqb_neq in Hp. by rewrite Hp. }
  pose proof (Hlive _ _ (step_tracked_wf _ _ _ _ _ Hwf Hstep)) as Hnd.
  by apply NoDup_cons in Hnd as [Hnotin _].
Qed.
End PoolDistinct.

(** ** Two instances *)

Section TwoInstances.
Context (hdr : babyfs_h).

(** Unmount of an instance whose [baby_sb_info] is live and whose buffer
    holds a reference. *)
Lemma put_super_live (sb : super_block) (k : kstate) (info : baby_sb_info)
    (bh : buffer_head) (n : nat) :
  s_fs_info sb <> NULL ->
  kheap k !! s_fs_info sb = Some info ->
  s_sbh info = Some bh ->
  refs k (bh_key bh) = S n ->
  baby_put_super sb k =
    Some (set_s_fs_info NULL sb,
          kfree (s_fs_info sb) (set_b_count (<[bh_key bh := n]> (b_count k)) k)).
Proof.
  intros Hp%Z.eqb_neq Hinfo Hbh Hrefs.
  unfold baby_put_super, BABY_SB. rewrite Hp, Hinfo, Hbh.
  unfold brelse. by rewrite Hrefs.
Qed.

(** X16: two instances are mounted, then the second is unmounted.  The
    first instance keeps its [baby_sb_info] and its pinned buffer: every
    reference count is what it was after the first mount.  The global
    block count, though, is still the second instance's.  Unmounting the
    first instance afterwards brings every reference count back to its
    value before both mounts. *)
Theorem second_instance_leaves_first (e1 e2 : mount_env)
    (sbA sbA' sbB sbB' : super_block) (k k1 k2 : kstate) (d2 : baby_super_block) :
  babyfs_fill_super hdr e1 sbA k = (0, sbA', k1) ->
  babyfs_fill_super hdr e2 sbB k1 = (0, sbB', k2) ->
  kzalloc_ptr e2 <> kzalloc_ptr e1 ->
  bread_data e2 = Some d2 ->
  exists k3 k4,
    baby_put_super sbB' k2 = Some (set_s_fs_info NULL sbB', k3) /\
    kheap k3 !! s_fs_info sbA' = kheap k1 !! s_fs_info sbA' /\
    is_Some (kheap k3 !! s_fs_info sbA') /\
    (forall key, refs k3 key = refs k1 key) /\
    NR_DSTORE_BLOCKS k3 = to_int (nr_dstore_blocks d2) /\
    baby_put_super sbA' k3 = Some (set_s_fs_info NULL sbA', k4) /\
    (forall key, refs k4 key = refs k key).
Proof.
  intros HmA HmB Hne Hd2.
  apply fill_super_success in HmA as (dA & HdA & HpA & -> & ->).
  apply fill_super_success in HmB as (dB & HdB & HpB & -> & ->).
  rewrite Hd2 in HdB. injection HdB as <-.
  set (kA := recorded hdr e1 sbA dA k).
  rewrite (put_super_mounted hdr e2 sbB d2 kA _ HpB).
  set (k3 := kfree (kzalloc_ptr e2)
               (set_b_count
                  (<[super_key hdr sbB := refs kA (super_key hdr sbB)]>
                     (b_count (recorded hdr e2 sbB d2 kA)))
                  (recorded hdr e2 sbB d2 kA))).
  assert (Hrefs3 : forall key, refs k3 key = refs kA key).
  { intros key. unfold k3. rewrite refs_kfree, refs_set_b_count. simpl.
    destruct (decide (super_key hdr sbB = key)) as [->|Hkey].
    - by rewrite lookup_insert_eq.
    - rewrite lookup_insert_ne by done. by rewrite lookup_insert_ne. }
  assert (Hheap3 : kheap k3 !! kzalloc_ptr e1 =
                   Some {| s_babysb := Some dA; s_sbh := Some (super_bh hdr sbA dA) |}).
  { unfold k3, kfree. apply Z.eqb_neq in HpB. rewrite HpB. simpl.
    rewrite lookup_delete_ne by done.
    rewrite lookup_insert_ne by done. rewrite lookup_insert_ne by done.
    by rewrite lookup_insert_eq. }
  assert (HheapA : kheap kA !! kzalloc_ptr e1 =
                   Some {| s_babysb := Some dA; s_sbh := Some (super_bh hdr sbA dA) |}).
  { unfold kA. simpl. by rewrite lookup_insert_eq. }
  eexists k3, _. split; [reflexivity|].
  split. { change (kheap k3 !! kzalloc_ptr e1 = kheap kA !! kzalloc_ptr e1).
           by rewrite Hheap3, HheapA. }
  split. { change (is_Some (kheap k3 !! kzalloc_ptr e1)). rewrite Hheap3. by eexists. }
  split; [exact Hrefs3|].
  split. { unfold k3, kfree. by destruct (kzalloc_ptr e2 =? NULL). }
  split.
  - apply (put_super_live _ k3
             {| s_babysb := Some dA; s_sbh := Some (super_bh hdr sbA dA) |}
             (super_bh hdr sbA dA) (refs k (super_key hdr sbA)));
      [done|exact Hheap3|done|].
    change (bh_key (super_bh hdr sbA dA)) with (super_key hdr sbA).
    rewrite Hrefs3. apply refs_recorded.
  - intros key. rewrite refs_kfree, refs_set_b_count.
    change (bh_key (super_bh hdr sbA dA)) with (super_key hdr sbA).
    destruct (decide (super_key hdr sbA = key)) as [->|Hkey].
    + by rewrite lookup_insert_eq.
    + rewrite lookup_insert_ne by done.
      fold (refs k3 key). rewrite Hrefs3. unfold refs, kA. simpl.
      by rewrite lookup_insert_ne.
Qed.

(** X17: what a successful mount establishes.  The super block has the
    filesystem's block size, the magic read, the babyfs operation table
    and a non-NULL root; [s_fs_info] points to a live [baby_sb_info] that
    holds the superblock read and pins the buffer of block
    BABYFS_SUPER_BLOCK of the instance's own device. *)
Theorem fill_super_postcondition (e : mount_env) (sb sb' : super_block)
    (k k' : kstate) :
  babyfs_fill_super hdr e sb k = (0, sb', k') ->
  exists d,
    bread_data e = Some d /\
    s_bdev sb' = s_bdev sb /\
    s_blocksize sb' = BABYFS_BLOCK_SIZE hdr /\
    s_magic sb' = to_ulong (magic d) /\
    s_op sb' = sops_babyfs_super_opts /\
    s_root sb' <> NULL /\
    s_fs_info sb' <> NULL /\
    kheap k' !! s_fs_info sb' =
      Some {| s_babysb := Some d;
              s_sbh := Some {| b_bdev := s_bdev sb;
                               b_blocknr := BABYFS_SUPER_BLOCK hdr;
                               b_data := d |} |} /\
    (0 < refs k' (s_bdev sb, BABYFS_SUPER_BLOCK hdr))%nat.
Proof.
  intros Hm.
  assert (Hret : (babyfs_fill_super hdr e sb k).1.1 = 0) by (by rewrite Hm).
  assert (Hroot : make_root_ptr e <> NULL).
  { destruct (fill_super_cases hdr e) as [Hearly|(d & Hp & Hbs & Hsz & Hd)].
    - rewrite (fill_super_early hdr e sb k Hearly) in Hret. discriminate.
    - rewrite (fill_super_read hdr e sb k d) in Hret by done.
      destruct (IS_ERR (iget_ptr e)) eqn:Herr.
      { apply PTR_ERR_range in Herr. simpl in Hret. lia. }
      destruct (make_root_ptr e =? NULL) eqn:Hnull; [discriminate|].
      by apply Z.eqb_neq in Hnull. }
  apply fill_super_success in Hm as (d & Hd & Hp & -> & ->).
  exists d. simpl. repeat split; try done.
  - by rewrite lookup_insert_eq.
  - change (s_bdev sb, BABYFS_SUPER_BLOCK hdr) with (super_key hdr sb).
    rewrite refs_recorded. lia.
Qed.
End TwoInstances.

(** *** Further concrete runs *)

(** Witness of [fill_super_heap_frame]: an object at 0x3000 survives a mount. *)
Lemma fill_super_heap_frame_witness :
  0x3000 <> kzalloc_ptr Sample.env_noroot /\
  kheap (babyfs_fill_super Sample.hdr Sample.env_noroot Sample.sb0 Sample.k0).2 !! 0x3000
    = kheap Sample.k0 !! 0x3000.
Proof.
  assert (Hq : 0x3000 <> kzalloc_ptr Sample.env_noroot) by discriminate.
  split; [exact Hq|].
  exact (fill_super_heap_frame Sample.hdr Sample.env_noroot Sample.sb0 Sample.k0
           0x3000 Hq).
Defined.

(** Witness of [fill_super_read_failure]. *)
Lemma fill_super_read_failure_witness :
  exists k',
    babyfs_fill_super Sample.hdr Sample.env_noread Sample.sb0 Sample.k0 =
      (- ENOMEM, set_s_blocksize 1024 Sample.sb0, k') /\
    kind_of (- ENOMEM) = Some OutOfMemory /\
    NR_DSTORE_BLOCKS k' = NR_DSTORE_BLOCKS Sample.k0 /\
    b_count k' = b_count Sample.k0.
Proof.
  assert (Hp : kzalloc_ptr Sample.env_noread <> NULL) by discriminate.
  exact (fill_super_read_failure Sample.hdr Sample.env_noread Sample.sb0 Sample.k0
           Hp eq_refl eq_refl).
Defined.

(** Witness of [fill_super_no_root_dentry]. *)
Lemma fill_super_no_root_dentry_witness :
  (babyfs_fill_super Sample.hdr Sample.env_nodentry Sample.sb0 Sample.k0).1.1 = - ENOMEM /\
  s_root (babyfs_fill_super Sample.hdr Sample.env_nodentry Sample.sb0 Sample.k0).1.2 = NULL /\
  (forall key,
     refs (babyfs_fill_super Sample.hdr Sample.env_nodentry Sample.sb0 Sample.k0).2 key
     = refs Sample.k0 key).
Proof.
  assert (Hp : kzalloc_ptr Sample.env_nodentry <> NULL) by discriminate.
  assert (Hsz : BABYFS_BLOCK_SIZE Sample.hdr <> 0) by discriminate.
  exact (fill_super_no_root_dentry Sample.hdr Sample.env_nodentry Sample.sb0 Sample.k0
           (Sample.disk 0xBABE1234 1000) Hp eq_refl Hsz eq_refl eq_refl eq_refl).
Defined.

(** Witness of [fill_super_failure_overwrites_global]: the failed mount of
    a 1000-block disk leaves 1000 in the global. *)
Lemma fill_super_failure_overwrites_global_witness :
  NR_DSTORE_BLOCKS (babyfs_fill_super Sample.hdr Sample.env_noroot Sample.sb0 Sample.k0).2
    = 1000 /\
  (babyfs_fill_super Sample.hdr Sample.env_noroot Sample.sb0 Sample.k0).1.1 <> 0.
Proof.
  assert (Hp : kzalloc_ptr Sample.env_noroot <> NULL) by discriminate.
  assert (Hsz : BABYFS_BLOCK_SIZE Sample.hdr <> 0) by discriminate.
  destruct (fill_super_failure_overwrites_global Sample.hdr Sample.env_noroot
              Sample.sb0 Sample.k0 (Sample.disk 0xBABE1234 1000)
              Hp eq_refl Hsz eq_refl) as [Hnr Hret].
  split; [exact Hnr|]. apply Hret. left. reflexivity.
Defined.

(** Witness of [fill_super_propagates_errno], with EIO. *)
Lemma fill_super_propagates_errno_witness :
  (babyfs_fill_super Sample.hdr Sample.env_ioerr Sample.sb0 Sample.k0).1.1 = - EIO /\
  (forall key,
     refs (babyfs_fill_super Sample.hdr Sample.env_ioerr Sample.sb0 Sample.k0).2 key
     = refs Sample.k0 key).
Proof.
  assert (Hp : kzalloc_ptr Sample.env_ioerr <> NULL) by discriminate.
  assert (Hsz : BABYFS_BLOCK_SIZE Sample.hdr <> 0) by discriminate.
  assert (Herrno : 0 < EIO <= MAX_ERRNO) by (unfold EIO, MAX_ERRNO; lia).
  exact (fill_super_propagates_errno Sample.hdr Sample.env_ioerr Sample.sb0 Sample.k0
           (Sample.disk 0xBABE1234 1000) EIO Hp eq_refl Hsz eq_refl Herrno eq_refl).
Defined.


(** Witness of [baby_put_super_frame]: unmount of a mounted instance. *)
Lemma baby_put_super_frame_witness :
  exists sb' k',
    NR_DSTORE_BLOCKS k' = 1000 /\ s_fs_info sb' = NULL /\ s_root sb' = 0x6000 /\
    baby_put_super sb' k' = Some (sb', k').
Proof.
  destruct (baby_put_super
              (babyfs_fill_super Sample.hdr
                 (Sample.env_ok 0x1000 (Sample.disk 0xBABE1234 1000))
                 Sample.sb0 Sample.k0).1.2
              (babyfs_fill_super Sample.hdr
                 (Sample.env_ok 0x1000 (Sample.disk 0xBABE1234 1000))
                 Sample.sb0 Sample.k0).2) as [[sb' k']|] eqn:Hput;
    [|vm_compute in Hput; discriminate].
  destruct (baby_put_super_frame _ _ _ _ Hput) as (Hnr & Hnull & Hsame & _ & _ & Hidem).
  exists sb', k'. split; [exact Hnr|]. split; [exact Hnull|].
  split; [|exact Hidem]. by injection Hsame.
Defined.

(** Witness of [baby_alloc_inode_null_iff]: an allocation that cannot grow. *)
Lemma baby_alloc_inode_null_iff_witness :
  (baby_alloc_inode Sample.hdr false Sample.m_loaded).1 = NULL <->
  (kmem_cache_alloc false Sample.m_loaded).1 = NULL.
Proof.
  apply (baby_alloc_inode_null_iff Sample.hdr false Sample.m_loaded).
  - simpl. lia.
  - vm_compute. discriminate.
Defined.


(** Witness of [module_life_is_safe]. *)
Lemma module_life_is_safe_witness :
  bad_cache_use
    (exit_babyfs Sample.hdr
       (run_ops Sample.hdr Sample.churn
          (init_babyfs Sample.hdr Sample.ie_ok Sample.m0).2)) = false /\
  rcu_pending
    (exit_babyfs Sample.hdr
       (run_ops Sample.hdr Sample.churn
          (init_babyfs Sample.hdr Sample.ie_ok Sample.m0).2)) = [] /\
  registered
    (exit_babyfs Sample.hdr
       (run_ops Sample.hdr Sample.churn
          (init_babyfs Sample.hdr Sample.ie_ok Sample.m0).2)) = false.
Proof.
  destruct (module_life_is_safe Sample.hdr Sample.ie_ok Sample.m0 Sample.churn
              (ex_intro _ _ eq_refl) eq_refl) as (Hbad & Hq & Hreg & _).
  exact (conj Hbad (conj Hq Hreg)).
Defined.

(** Witness of [live_inodes_distinct]: two inodes in use after a run that
    destroyed and reused a third. *)
Lemma live_inodes_distinct_witness :
  exists m' live,
    run_tracked Sample.hdr
      [OpAlloc true; OpAlloc false; OpDestroy (0x100000 + 128); OpGrace; OpAlloc false]
      (init_inodecache Sample.hdr Sample.ie_ok Sample.m0).2 [] = Some (m', live) /\
    length live = 2%nat /\
    NoDup live /\
    (baby_alloc_inode Sample.hdr false m').1 ∉ live.
Proof.
  assert (Hsize : 0 < sizeof_baby_inode_info Sample.hdr) by (simpl; lia).
  eexists _, _. split; [vm_compute; reflexivity|]. split; [reflexivity|].
  destruct (live_inodes_distinct Sample.hdr Sample.ie_ok Sample.m0 _
              [OpAlloc true; OpAlloc false; OpDestroy (0x100000 + 128); OpGrace;
               OpAlloc false]
              _ (ex_intro _ _ eq_refl) Hsize eq_refl ltac:(vm_compute; reflexivity))
    as [Hnd Hfresh].
  split; [exact Hnd|]. apply (Hfresh false). vm_compute. discriminate.
Defined.

(** Witness of [second_instance_leaves_first]: devices 7 and 8. *)
Lemma second_instance_leaves_first_witness :
  exists sbA' sbB' k1 k2 k3 k4,
    baby_put_super sbB' k2 = Some (set_s_fs_info NULL sbB', k3) /\
    is_Some (kheap k3 !! s_fs_info sbA') /\
    (forall key, refs k3 key = refs k1 key) /\
    NR_DSTORE_BLOCKS k3 = 77 /\
    baby_put_super sbA' k3 = Some (set_s_fs_info NULL sbA', k4) /\
    (forall key, refs k4 key = refs Sample.k0 key).
Proof.
  assert (Hne : kzalloc_ptr (Sample.env_ok 0x2000 (Sample.disk 0xBABE1234 77))
                <> kzalloc_ptr (Sample.env_ok 0x1000 (Sample.disk 0xBABE1234 1000)))
    by discriminate.
  destruct (second_instance_leaves_first Sample.hdr
              (Sample.env_ok 0x1000 (Sample.disk 0xBABE1234 1000))
              (Sample.env_ok 0x2000 (Sample.disk 0xBABE1234 77))
              Sample.sb0 _ Sample.sb1 _ Sample.k0 _ _ (Sample.disk 0xBABE1234 77)
              eq_refl eq_refl Hne eq_refl)
    as (k3 & k4 & HputB & _ & Hlive & Hrefs3 & Hnr & HputA & Hrefs4).
  eexists _, _, _, _, k3, k4.
  exact (conj HputB (conj Hlive (conj Hrefs3 (conj Hnr (conj HputA Hrefs4))))).
Defined.

(** Witness of [fill_super_postcondition]. *)
Lemma fill_super_postcondition_witness :
  exists sb' k' d,
    bread_data (Sample.env_ok 0x1000 (Sample.disk 0xBABE1234 1000)) = Some d /\
    s_blocksize sb' = 1024 /\
    s_op sb' = sops_babyfs_super_opts /\
    s_fs_info sb' <> NULL /\
    (0 < refs k' (s_bdev Sample.sb0, BABYFS_SUPER_BLOCK Sample.hdr))%nat.
Proof.
  destruct (fill_super_postcondition Sample.hdr
              (Sample.env_ok 0x1000 (Sample.disk 0xBABE1234 1000))
              Sample.sb0 _ Sample.k0 _ eq_refl)
    as (d & Hd & _ & Hbs & _ & Hop & _ & Hinfo & _ & Hrefs).
  eexists _, _, d.
  exact (conj Hd (conj Hbs (conj Hop (conj Hinfo Hrefs)))).
Defined.
